(** * Aretrails2Wikidata: the trail record model and its filtered views

    A shallow embedding of [main.py]: the [TrailItem] accessors, the
    [AreTrailsData] views, [parse_items] and [export_trails_to_csv], over a
    small model of the Python values that [json] produces. *)

From Stdlib Require Import ZArith QArith Qround Lia.
From Stdlib Require Import Floats.SpecFloat.
From stdpp Require Import base option list strings gmap.

Set Warnings "-register-all".

Local Open Scope string_scope.
Local Open Scope Z_scope.
Local Open Scope list_scope.

(** ** Python values *)

(** The values [response.json()] can hold.  A [str] is kept as its UTF-8
    bytes: emptiness and the containment of an ASCII needle are the same on
    bytes as on code points.  A [float] is an IEEE binary64 number, a [dict]
    with [str] keys a finite map. *)
Inductive pyval : Type :=
  | VNone
  | VBool (b : bool)
  | VInt (n : Z)
  | VFloat (f : spec_float)
  | VStr (s : string)
  | VList (l : list pyval)
  | VDict (d : gmap string pyval).

(** The exceptions the modelled code can raise. *)
Inductive pyerr : Type :=
  | ValueError (msg : string)
  | KeyError (key : string)
  | TypeError
  | AttributeError
  | OverflowError
  | ValidationError.

(** A computation that returns or raises. *)
Inductive result (A : Type) : Type :=
  | Ok (a : A)
  | Raise (e : pyerr).
Arguments Ok {A} a.
Arguments Raise {A} e.

Definition bind {A B} (m : result A) (f : A → result B) : result B :=
  match m with
  | Ok a => f a
  | Raise e => Raise e
  end.

Notation "'do' x <- m ; k" := (bind m (fun x => k))
  (at level 10, x name, m at level 100, k at level 200,
   format "'[v' 'do'  x  <-  m ; '/' k ']'").

Definition is_ok {A} (r : result A) : Prop := ∃ a, r = Ok a.

(** [bool(v)] *)
Definition truthy (v : pyval) : bool :=
  match v with
  | VNone => false
  | VBool b => b
  | VInt n => negb (n =? 0)
  | VFloat (S754_zero _) => false
  | VFloat _ => true
  | VStr s => negb (String.eqb s "")
  | VList l => match l with [] => false | _ :: _ => true end
  | VDict d => negb (bool_decide (d = ∅))
  end.

(** [v[key]] for a [str] key: only a [dict] can be subscripted by one. *)
Definition getitem (v : pyval) (key : string) : result pyval :=
  match v with
  | VDict d =>
      match d !! key with
      | Some x => Ok x
      | None => Raise (KeyError key)
      end
  | _ => Raise TypeError
  end.

(** [v.get(key, dflt)]: only a [dict] has the method. *)
Definition py_get (v : pyval) (key : string) (dflt : pyval) : result pyval :=
  match v with
  | VDict d => Ok (default dflt (d !! key))
  | _ => Raise AttributeError
  end.

(** [needle in hay] on two [str]. *)
Fixpoint str_contains (needle hay : string) : bool :=
  if String.prefix needle hay then true
  else match hay with
       | EmptyString => false
       | String _ rest => str_contains needle rest
       end.

Definition is_str (needle : string) (v : pyval) : bool :=
  match v with
  | VStr s => String.eqb s needle
  | _ => false
  end.

(** [needle in v] for a [str] needle: substring of a [str], element of a
    list, key of a [dict]; the other values are not containers. *)
Definition py_in (needle : string) (v : pyval) : result bool :=
  match v with
  | VStr s => Ok (str_contains needle s)
  | VList l => Ok (existsb (is_str needle) l)
  | VDict d => Ok (bool_decide (is_Some (d !! needle)))
  | _ => Raise TypeError
  end.

(** [v == {}] *)
Definition eq_empty_dict (v : pyval) : bool :=
  match v with
  | VDict d => bool_decide (d = ∅)
  | _ => false
  end.

(** [x or y] with [y] evaluated only when [x] is falsy. *)
Definition py_or (x : pyval) (y : result pyval) : result pyval :=
  if truthy x then Ok x else y.

(** [a or b] on two conditions, the second one skipped when the first holds. *)
Definition orM (a b : result bool) : result bool :=
  do x <- a; if x then Ok true else b.

(** The comprehension [[x for x in l if p x]]: the elements are tried in
    order and the first exception ends it. *)
Fixpoint filterM {A} (p : A → result bool) (l : list A) : result (list A) :=
  match l with
  | [] => Ok []
  | x :: l' =>
      do b <- p x;
      do r <- filterM p l';
      Ok (if b then x :: r else r)
  end.

(** ** Floats *)

Definition float_of_Z (n : Z) : spec_float := binary_normalize 53 1024 n 0 false.

(** What [float] does on a [str] is left to the interpreter. *)
Class FloatParser := float_of_str : string → option spec_float.

(** [float(v)] *)
Definition py_float `{FloatParser} (v : pyval) : result spec_float :=
  match v with
  | VFloat f => Ok f
  | VInt n =>
      match float_of_Z n with
      | S754_infinity _ => Raise OverflowError
      | f => Ok f
      end
  | VBool b => Ok (float_of_Z (if b then 1 else 0))
  | VStr s =>
      match float_of_str s with
      | Some f => Ok f
      | None => Raise (ValueError "could not convert string to float")
      end
  | _ => Raise TypeError
  end.

(** [int(f)] on a float: the fraction is dropped, towards zero. *)
Definition py_int_of_float (f : spec_float) : result Z :=
  match f with
  | S754_zero _ => Ok 0
  | S754_finite s m e => Ok (cond_Zopp s (Z.shiftl (Z.pos m) e))
  | S754_infinity _ => Raise OverflowError
  | S754_nan => Raise (ValueError "cannot convert float NaN to integer")
  end.

(** The number a finite float stands for. *)
Definition SF2Q (f : spec_float) : Q :=
  match f with
  | S754_finite s m e =>
      match e with
      | Z.neg p => cond_Zopp s (Z.pos m) # Pos.pow 2 p
      | _ => inject_Z (cond_Zopp s (Z.pos m) * 2 ^ e)
      end
  | _ => 0%Q
  end.

(** The integer nearest to [num / den], ties to even ([0 < den]). *)
Definition round_half_even (num den : Z) : Z :=
  let q := num / den in
  let r := num mod den in
  match 2 * r ?= den with
  | Lt => q
  | Gt => q + 1
  | Eq => if Z.even q then q else q + 1
  end.

(** The float nearest to [num / den] for positive [num] and [den]. *)
Definition float_of_ratio (s : bool) (num den : Z) : spec_float :=
  let '(mz, ez, lz) := SFdiv_core_binary 53 1024 num 0 den 0 in
  binary_round_aux 53 1024 s mz ez lz.

(** [round(f, 1)]: the decimal with one digit after the point nearest to
    [f] (ties to even), read back as a float. *)
Definition py_round1 (f : spec_float) : spec_float :=
  match f with
  | S754_finite s m e =>
      let tenths :=
        match e with
        | Z.neg p => round_half_even (10 * Z.pos m) (Z.pos (Pos.pow 2 p))
        | _ => 10 * Z.pos m * 2 ^ e
        end in
      if tenths =? 0 then S754_zero s else float_of_ratio s tenths 10
  | _ => f
  end.

(** ** TrailItem *)

Module TrailItem.

Record t : Type := mk {
  id : string;
  objectClass : string;
  content : pyval;
  properties : pyval;
  networkId : string
}.

Definition network_id (self : t) : string := networkId self.

Definition activity (self : t) : result pyval :=
  if truthy (content self) then py_get (content self) "activity" (VDict ∅)
  else Raise (ValueError "no self.content").

Definition activity_key (self : t) : result pyval :=
  do a <- activity self;
  if truthy a then
    do a' <- activity self; py_get a' "key" (VStr "")
  else Ok (VStr "").

Definition has_running_activity (self : t) : result bool :=
  do k <- activity_key self;
  do b <- py_in "running" k;
  if b then Ok true else Ok false.

Definition has_riding_activity (self : t) : result bool :=
  do k <- activity_key self;
  do b <- py_in "riding" k;
  if b then Ok true else Ok false.

Definition has_hike_activity (self : t) : result bool :=
  do k <- activity_key self;
  do b <- py_in "hiking" k;
  if b then Ok true else Ok false.

(** The condition is ["bicycle" or ("gravel" in self.activity_key)]. *)
Definition has_bike_activity (self : t) : result bool :=
  do c <- py_or (VStr "bicycle")
            (do k <- activity_key self; do b <- py_in "gravel" k; Ok (VBool b));
  if truthy c then Ok true else Ok false.

Definition is_multitrail (self : t) : result pyval :=
  getitem (properties self) "isMultiTrail".

Definition url (self : t) : string :=
  "https://www.aretrails.com/trail/" +:+ id self.

Definition title (self : t) : result pyval :=
  getitem (content self) "title".

Definition length `{FloatParser} (self : t) : result Z :=
  do d <- getitem (properties self) "trailDistanceMeter";
  if truthy d then
    do d' <- getitem (properties self) "trailDistanceMeter";
    do f <- py_float d';
    py_int_of_float f
  else Ok 0.

Definition length_in_km `{FloatParser} (self : t) : result pyval :=
  do d <- getitem (properties self) "trailDistanceMeter";
  if truthy d then
    do d' <- getitem (properties self) "trailDistanceMeter";
    do f <- py_float d';
    Ok (VFloat (py_round1 (SFdiv 53 1024 f (float_of_Z 1000))))
  else Ok (VInt 0).

Definition number (self : t) : result pyval :=
  py_get (properties self) "trailNumber" (VStr "").

Definition class_ (self : t) : string := objectClass self.

Definition gpx_url (self : t) : string :=
  "https://func-gaiaplaces-aretrails.azurewebsites.net/api/ContentItem/geo/"
    +:+ id self +:+ "/gpx?networkId=" +:+ network_id self
    +:+ "&draft=0&code=".

End TrailItem.

(** ** AreTrailsData *)

(** The constructor [TrailItem] on unpacked keyword arguments: pydantic's
    validation;
    [None] stands for its [ValidationError]. *)
Class Pydantic := TrailItem_init : gmap string pyval → option TrailItem.t.

(** The validation as the model declares it: [id], [objectClass] and
    [networkId] are required strings, [content] and [properties] are kept
    as they come ([None] when absent), other keys are ignored. *)
Definition declared_fields : Pydantic := λ kw,
  match kw !! "id", kw !! "objectClass", kw !! "networkId" with
  | Some (VStr i), Some (VStr c), Some (VStr n) =>
      Some (TrailItem.mk i c (default VNone (kw !! "content"))
                         (default VNone (kw !! "properties")) n)
  | _, _, _ => None
  end.

(** One line of a CSV file, cell by cell, before the cells are printed. *)
Definition csv_row : Type := list pyval.

Module AreTrailsData.

Record t : Type := mk {
  items : list TrailItem.t;
  data : pyval
}.

(** The elements [for item in v] goes through: those of a list, the keys
    of a [dict], the characters of a [str] (here byte by byte; every one of
    them is a [str], which is all the caller looks at). *)
Definition py_iter (v : pyval) : result (list pyval) :=
  match v with
  | VList l => Ok l
  | VStr s => Ok ((λ c, VStr (String c EmptyString)) <$> String.list_ascii_of_string s)
  | VDict d => Ok (VStr <$> (map_to_list d).*1)
  | _ => Raise TypeError
  end.

(** The constructor call on [item] unpacked: unpacking wants a mapping. *)
Definition new_TrailItem `{Pydantic} (item : pyval) : result TrailItem.t :=
  match item with
  | VDict kw =>
      match TrailItem_init kw with
      | Some x => Ok x
      | None => Raise ValidationError
      end
  | _ => Raise TypeError
  end.

Fixpoint mapM {A B} (f : A → result B) (l : list A) : result (list B) :=
  match l with
  | [] => Ok []
  | x :: l' =>
      do y <- f x;
      do r <- mapM f l';
      Ok (y :: r)
  end.

(** The outcome and the object after the call: the assignment to
    [self.items] happens once the whole list is built. *)
Definition parse_items `{Pydantic} (self : t) : result unit * t :=
  match (do raw <- getitem (data self) "items";
         do elems <- py_iter raw;
         mapM new_TrailItem elems) with
  | Ok l => (Ok tt, mk l (data self))
  | Raise e => (Raise e, self)
  end.

(** [item.class_ == "trail" and c]: [c] is skipped for other classes. *)
Definition trail_and (item : TrailItem.t) (c : result bool) : result bool :=
  if String.eqb (TrailItem.class_ item) "trail" then c else Ok false.

Definition trails (self : t) : list TrailItem.t :=
  filter (λ item, TrailItem.class_ item = "trail") (items self).

Definition multitrails (self : t) : result (list TrailItem.t) :=
  filterM (λ item, trail_and item
             (do v <- TrailItem.is_multitrail item; Ok (truthy v)))
          (items self).

Definition riding_trails (self : t) : result (list TrailItem.t) :=
  filterM (λ item, trail_and item (TrailItem.has_riding_activity item))
          (items self).

Definition bicycle_trails (self : t) : result (list TrailItem.t) :=
  filterM (λ item, trail_and item (TrailItem.has_bike_activity item))
          (items self).

Definition hiking_trails (self : t) : result (list TrailItem.t) :=
  filterM (λ item, trail_and item (TrailItem.has_hike_activity item))
          (items self).

Definition running_trails (self : t) : result (list TrailItem.t) :=
  filterM (λ item, trail_and item (TrailItem.has_running_activity item))
          (items self).

Definition trails_with_activity (self : t) : result (list TrailItem.t) :=
  filterM (λ item, trail_and item
             (do a <- TrailItem.activity item; Ok (negb (eq_empty_dict a))))
          (items self).

Definition trails_without_activity (self : t) : result (list TrailItem.t) :=
  filterM (λ item, trail_and item
             (do a <- TrailItem.activity item; Ok (eq_empty_dict a)))
          (items self).

Definition trails_with_unsupported_activity (self : t)
  : result (list TrailItem.t) :=
  filterM (λ item, trail_and item
             (do s <- orM (TrailItem.has_hike_activity item)
                       (orM (TrailItem.has_riding_activity item)
                          (orM (TrailItem.has_bike_activity item)
                               (TrailItem.has_running_activity item)));
              Ok (negb s)))
          (items self).

Definition fieldnames : list string :=
  ["title"; "number"; "activity_key"; "multitrail"; "length"; "url"; "gpx"].

(** [DictWriter._dict_to_list]: a key outside the field names is an
    error, a missing one is written as the empty string. *)
Definition dict_to_list (rowdict : gmap string pyval) : result csv_row :=
  if bool_decide (dom rowdict ⊆ list_to_set fieldnames) then
    Ok ((λ key, default (VStr "") (rowdict !! key)) <$> fieldnames)
  else Raise (ValueError "dict contains fields not in fieldnames").

(** [writer.writerow(rowdict)] on a file that holds the rows [out]. *)
Definition writerow (out : list csv_row) (rowdict : gmap string pyval)
  : result (list csv_row) :=
  do r <- dict_to_list rowdict; Ok (out ++ [r]).

Definition header : gmap string pyval :=
  list_to_map (zip fieldnames (VStr <$> fieldnames)).

(** The dict literal of the loop body, its values computed in order. *)
Definition row_dict `{FloatParser} (trail : TrailItem.t)
  : result (gmap string pyval) :=
  do title <- TrailItem.title trail;
  do number <- TrailItem.number trail;
  do activity_key <- TrailItem.activity_key trail;
  do multitrail <- TrailItem.is_multitrail trail;
  do length <- TrailItem.length trail;
  Ok (list_to_map
        [("title", title); ("number", number);
         ("activity_key", activity_key); ("multitrail", multitrail);
         ("length", VInt length); ("url", VStr (TrailItem.url trail));
         ("gpx", VStr (TrailItem.gpx_url trail))]).

(** The loop over [self.trails]: the rows written before an exception
    stay in the file. *)
Fixpoint write_trails `{FloatParser} (ts : list TrailItem.t)
    (out : list csv_row) : result unit * list csv_row :=
  match ts with
  | [] => (Ok tt, out)
  | trail :: ts' =>
      match (do d <- row_dict trail; writerow out d) with
      | Ok out' => write_trails ts' out'
      | Raise e => (Raise e, out)
      end
  end.

(** The outcome and the rows of the file, which is opened empty. *)
Definition export_trails_to_csv `{FloatParser} (self : t)
  : result unit * list csv_row :=
  match writerow [] header with
  | Ok out => write_trails (trails self) out
  | Raise e => (Raise e, [])
  end.

End AreTrailsData.

(** ** Vocabulary of the properties *)

(** The content (or any value) is a mapping with at least one key. *)
Definition is_nonempty_mapping (v : pyval) : bool :=
  match v with
  | VDict d => negb (bool_decide (d = ∅))
  | _ => false
  end.

(** The accessor returned, and returned a [str]. *)
Definition returns_str (r : result pyval) : bool :=
  match r with
  | Ok (VStr _) => true
  | _ => false
  end.

(** [item] is in no list that [view] returns. *)
Definition excluded_from (item : TrailItem.t)
    (view : result (list TrailItem.t)) : Prop :=
  ∀ l, view = Ok l → item ∉ l.

(** A list that [view] returns keeps the order of [trails] and of [items]. *)
Definition in_source_order (self : AreTrailsData.t)
    (view : result (list TrailItem.t)) : Prop :=
  ∀ l, view = Ok l →
    (l `sublist_of` AreTrailsData.items self) ∧
    (l `sublist_of` AreTrailsData.trails self).

(** An element of the payload is a JSON object. *)
Definition is_mapping (v : pyval) : bool :=
  match v with
  | VDict _ => true
  | _ => false
  end.

(** The first line of the file: the seven column names. *)
Definition header_row : csv_row :=
  [VStr "title"; VStr "number"; VStr "activity_key"; VStr "multitrail";
   VStr "length"; VStr "url"; VStr "gpx"].

(** [row] holds what the seven row accessors return on [trail], in the
    order of the columns. *)
Definition row_of_trail `{FloatParser} (trail : TrailItem.t) (row : csv_row)
  : Prop :=
  ∃ title number activity_key multitrail length,
    TrailItem.title trail = Ok title ∧
    TrailItem.number trail = Ok number ∧
    TrailItem.activity_key trail = Ok activity_key ∧
    TrailItem.is_multitrail trail = Ok multitrail ∧
    TrailItem.length trail = Ok length ∧
    row = [title; number; activity_key; multitrail; VInt length;
           VStr (TrailItem.url trail); VStr (TrailItem.gpx_url trail)].

(** The row accessors that can raise all return on [trail]. *)
Definition row_accessors_return `{FloatParser} (trail : TrailItem.t) : Prop :=
  is_ok (TrailItem.title trail) ∧
  is_ok (TrailItem.number trail) ∧
  is_ok (TrailItem.activity_key trail) ∧
  is_ok (TrailItem.is_multitrail trail) ∧
  is_ok (TrailItem.length trail).

(** ** Sample data *)

Module Sample.

(** A parser that accepts no string: the samples hold no numeric strings. *)
Definition no_numeric_strings : FloatParser := λ _, None.

Definition hiking : pyval :=
  VDict {[ "key" := VStr "hiking-easy"; "value" := VStr "Easy" ]}.

Definition loop_a : TrailItem.t :=
  TrailItem.mk "a1" "trail"
    (VDict {[ "title" := VStr "Loop A"; "activity" := hiking ]})
    (VDict {[ "isMultiTrail" := VBool false;
              "trailDistanceMeter" := VInt 3500;
              "trailNumber" := VStr "12" ]})
    "net".

Definition loop_b : TrailItem.t :=
  TrailItem.mk "b2" "trail"
    (VDict {[ "title" := VStr "Loop B, with comma" ]})
    (VDict {[ "isMultiTrail" := VBool true;
              "trailDistanceMeter" := VInt 0 ]})
    "net".

(** An entry of another class, with neither content nor properties. *)
Definition shelter : TrailItem.t :=
  TrailItem.mk "c3" "poi" VNone VNone "net".

(** A trail whose activity has only a label. *)
Definition unlabelled : TrailItem.t :=
  TrailItem.mk "d4" "trail"
    (VDict {[ "title" := VStr "Ridge";
              "activity" := VDict {[ "value" := VStr "Easy" ]} ]})
    (VDict {[ "isMultiTrail" := VBool false;
              "trailDistanceMeter" := VNone ]})
    "net".

(** A trail whose activity key is [null]. *)
Definition null_key : TrailItem.t :=
  TrailItem.mk "e5" "trail"
    (VDict {[ "title" := VStr "Fen";
              "activity" := VDict {[ "key" := VNone ]} ]})
    (VDict {[ "isMultiTrail" := VBool false;
              "trailDistanceMeter" := VInt 1200 ]})
    "net".

(** A trail with no distance at all. *)
Definition unmeasured : TrailItem.t :=
  TrailItem.mk "f6" "trail"
    (VDict {[ "title" := VStr "Brook" ]})
    (VDict {[ "isMultiTrail" := VBool false ]})
    "net".

(** -1.5 *)
Definition minus_three_halves : spec_float := S754_finite true 3 (-1).

Definition downhill : TrailItem.t :=
  TrailItem.mk "g7" "trail"
    (VDict {[ "title" := VStr "Drop" ]})
    (VDict {[ "isMultiTrail" := VBool false;
              "trailDistanceMeter" := VFloat minus_three_halves ]})
    "net".

Definition catalog : AreTrailsData.t :=
  AreTrailsData.mk [loop_a; shelter; loop_b; unlabelled] VNone.

Definition raw_item (i c : string) : pyval :=
  VDict {[ "id" := VStr i; "objectClass" := VStr c;
           "networkId" := VStr "net" ]}.

Definition payload : pyval :=
  VDict {[ "items" := VList [raw_item "a1" "trail"; raw_item "c3" "poi"] ]}.

(** The second entry has no [id]. *)
Definition broken_payload : pyval :=
  VDict {[ "items" :=
    VList [raw_item "a1" "trail";
           VDict {[ "objectClass" := VStr "trail" ]};
           raw_item "c3" "poi"] ]}.

End Sample.

(** ** The script *)

Module Script.

(** What the server does with the one GET request: no usable answer (no
    connection, a timeout), or an answer with its status code and the JSON
    value of its body (an answer whose body is not JSON is not modelled). *)
Inductive http_reply : Type :=
  | NoReply
  | Reply (status : Z) (body : pyval).

(** The two kinds of exception the script tells apart: those of [requests]
    and the others. *)
Inductive exn : Type :=
  | RequestException
  | Other (e : pyerr).

(** A line on the console.  [Count label n] is the line
    [label: n]; the text of an exception is not modelled. *)
Inductive out_line : Type :=
  | Count (label : string) (n : nat)
  | Exported (filename : string)
  | ErrorFetching
  | UnexpectedError (e : pyerr).

(** [response.raise_for_status()]: the client and server error codes. *)
Definition is_error_status (status : Z) : bool :=
  (400 <=? status) && (status <? 600).

(** The outcome and the object after the call: [self.data] is assigned only
    when the request went through and its status is no error. *)
Definition fetch_aretrails_json (net : http_reply) (self : AreTrailsData.t)
  : option exn * AreTrailsData.t :=
  match net with
  | NoReply => (Some RequestException, self)
  | Reply status body =>
      if is_error_status status then (Some RequestException, self)
      else (None, AreTrailsData.mk (AreTrailsData.items self) body)
  end.

(** What a run leaves: the console and, once the export has opened it, the
    rows of the CSV file. *)
Definition outcome : Type := list out_line * option (list csv_row).

(** [print(f"label: {len(view)}")] and then the rest of the script; an
    exception in the view goes to the last handler. *)
Definition report (label : string) (view : result (list TrailItem.t))
    (rest : list out_line → outcome) (console : list out_line) : outcome :=
  match view with
  | Ok l => rest (console ++ [Count label (List.length l)])
  | Raise e => (console ++ [UnexpectedError e], None)
  end.

(** The call of [export_trails_to_csv], whose last statement prints. *)
Definition export `{FloatParser} (atd : AreTrailsData.t)
    (console : list out_line) : outcome :=
  match AreTrailsData.export_trails_to_csv atd with
  | (Ok _, rows) => (console ++ [Exported "trails.csv"], Some rows)
  | (Raise e, rows) => (console ++ [UnexpectedError e], Some rows)
  end.

(** The body of the script, from the empty collection on. *)
Definition main `{FloatParser} `{Pydantic} (net : http_reply) : outcome :=
  match fetch_aretrails_json net (AreTrailsData.mk [] VNone) with
  | (Some RequestException, _) => ([ErrorFetching], None)
  | (Some (Other e), _) => ([UnexpectedError e], None)
  | (None, fetched) =>
      match AreTrailsData.parse_items fetched with
      | (Raise e, _) => ([UnexpectedError e], None)
      | (Ok _, atd) =>
          report "number of Trail items" (Ok (AreTrailsData.trails atd))
         (report "number of multitrail items" (AreTrailsData.multitrails atd)
         (report "number of hiking trail items"
                 (AreTrailsData.hiking_trails atd)
         (report "number of bicycle trail items"
                 (AreTrailsData.bicycle_trails atd)
         (report "number of riding trail items"
                 (AreTrailsData.riding_trails atd)
         (report "number of running trail items"
                 (AreTrailsData.running_trails atd)
         (report "number of trail items without activity"
                 (AreTrailsData.trails_without_activity atd)
         (report "number of trail items with activity"
                 (AreTrailsData.trails_with_activity atd)
         (report "number of trail items with unsupported activity"
                 (AreTrailsData.trails_with_unsupported_activity atd)
         (export atd))))))))) []
      end
  end.

End Script.

(** ** More vocabulary *)

(** [needle] occurs somewhere in [hay]. *)
Definition occurs_in (needle hay : string) : Prop :=
  ∃ pre post, hay = pre +:+ needle +:+ post.

(** The value [activity] gives for a content that is the mapping [d]. *)
Definition activity_of (d : gmap string pyval) : pyval :=
  default (VDict ∅) (d !! "activity").

(** The line is one of the counts. *)
Definition is_count (line : Script.out_line) : bool :=
  match line with
  | Script.Count _ _ => true
  | _ => false
  end.


(** A feed with three trails and a shelter. *)
Module Feed.

Definition entry (i c : string) (content properties : pyval) : pyval :=
  VDict {[ "id" := VStr i; "objectClass" := VStr c;
           "networkId" := VStr "net"; "content" := content;
           "properties" := properties ]}.

Definition body : pyval :=
  VDict {[ "items" := VList
    [entry "a1" "trail" (TrailItem.content Sample.loop_a)
                        (TrailItem.properties Sample.loop_a);
     entry "c3" "poi" VNone VNone;
     entry "b2" "trail" (TrailItem.content Sample.loop_b)
                        (TrailItem.properties Sample.loop_b);
     entry "d4" "trail" (TrailItem.content Sample.unlabelled)
                        (TrailItem.properties Sample.unlabelled)] ]}.

End Feed.

(** ** The error monad *)

Lemma bind_Ok {A B} (m : result A) (f : A → result B) (b : B) :
  bind m f = Ok b ↔ ∃ a, m = Ok a ∧ f a = Ok b.
Proof.
  destruct m as [a|e]; simpl; split.
  - eauto.
  - intros (a' & [= <-] & Hf); exact Hf.
  - discriminate.
  - intros (a' & [=] & _).
Qed.

Lemma is_ok_Ok {A} (a : A) : is_ok (Ok a).
Proof. by exists a. Qed.

Lemma not_is_ok_Raise {A} (e : pyerr) : ¬ is_ok (@Raise A e).
Proof. intros [a [=]]. Qed.

Lemma truthy_dict (d : gmap string pyval) : d ≠ ∅ → truthy (VDict d) = true.
Proof. intros Hd; simpl. by rewrite bool_decide_eq_false_2. Qed.

(** ** The accessors of a trail item *)

(** With a non-empty mapping as content, [activity] is a plain lookup. *)
Lemma activity_of_mapping (self : TrailItem.t) (d : gmap string pyval) :
  TrailItem.content self = VDict d → d ≠ ∅ →
  TrailItem.activity self = Ok (default (VDict ∅) (d !! "activity")).
Proof.
  intros Hc Hd. unfold TrailItem.activity.
  rewrite Hc, (truthy_dict d Hd). reflexivity.
Qed.

(** C1: [has_bike_activity] answers [True] for every trail item, whatever
    its activity key is, and so in particular for every item whose content
    is non-empty: the literal ["bicycle"] is truthy and the test on the
    activity key is never reached (the key is not even computed). *)
Theorem C1_has_bike_activity_always_true (self : TrailItem.t) :
  TrailItem.has_bike_activity self = Ok true.
Proof. reflexivity. Qed.

(** C3: [activity] raises the missing-content [ValueError] when the content
    is absent or empty (falsy: [None], an empty mapping, ...), and returns
    an empty mapping when the content is a non-empty mapping without the
    key ["activity"]. *)
Theorem C3_activity_missing_content (self : TrailItem.t) :
  (truthy (TrailItem.content self) = false →
     TrailItem.activity self = Raise (ValueError "no self.content")) ∧
  (∀ d : gmap string pyval,
     TrailItem.content self = VDict d → d ≠ ∅ → d !! "activity" = None →
     TrailItem.activity self = Ok (VDict ∅)).
Proof.
  split.
  - intros Hf. unfold TrailItem.activity. by rewrite Hf.
  - intros d Hc Hd Ha.
    rewrite (activity_of_mapping self d Hc Hd), Ha. reflexivity.
Qed.

Lemma C3_activity_missing_content_witness :
  TrailItem.activity Sample.shelter = Raise (ValueError "no self.content") ∧
  TrailItem.activity Sample.loop_b = Ok (VDict ∅).
Proof.
  split.
  - apply (proj1 (C3_activity_missing_content Sample.shelter)). reflexivity.
  - apply (proj2 (C3_activity_missing_content Sample.loop_b)
             {[ "title" := VStr "Loop B, with comma" ]}).
    + reflexivity.
    + intros H. apply (f_equal (λ m, m !! "title")) in H. vm_compute in H.
      discriminate H.
    + vm_compute. reflexivity.
Defined.

(** C10: when the content is a non-empty mapping whose activity is a
    non-empty mapping without the field ["key"], [activity_key] returns the
    empty string and does not fail; an empty activity gives the same. *)
Theorem C10_activity_key_without_key (self : TrailItem.t)
    (d a : gmap string pyval) :
  TrailItem.content self = VDict d → d ≠ ∅ →
  d !! "activity" = Some (VDict a) →
  (a ≠ ∅ → a !! "key" = None → TrailItem.activity_key self = Ok (VStr "")) ∧
  (a = ∅ → TrailItem.activity_key self = Ok (VStr "")).
Proof.
  intros Hc Hd Ha. unfold TrailItem.activity_key.
  rewrite (activity_of_mapping self d Hc Hd), Ha. simpl. split.
  - intros Hne Hk. rewrite bool_decide_eq_false_2 by exact Hne. simpl.
    by rewrite Hk.
  - intros ->. reflexivity.
Qed.

Lemma C10_activity_key_without_key_witness :
  TrailItem.activity_key Sample.unlabelled = Ok (VStr "").
Proof.
  refine (proj1 (C10_activity_key_without_key Sample.unlabelled
            {[ "title" := VStr "Ridge";
               "activity" := VDict {[ "value" := VStr "Easy" ]} ]}
            {[ "value" := VStr "Easy" ]} _ _ _) _ _).
  - reflexivity.
  - apply insert_non_empty.
  - vm_compute. reflexivity.
  - apply map_non_empty_singleton.
  - vm_compute. reflexivity.
Defined.

(** ** Comprehensions *)

Section FilterM.
Context {A : Type}.
Implicit Types (p q : A → result bool) (l r : list A).

Lemma filterM_sublist p l r : filterM p l = Ok r → r `sublist_of` l.
Proof.
  revert r. induction l as [|x l IH]; simpl; intros r Hr.
  - injection Hr as <-. constructor.
  - apply bind_Ok in Hr as (b & _ & Hr).
    apply bind_Ok in Hr as (r' & Hr' & [= <-]).
    destruct b; [apply sublist_skip | apply sublist_cons]; auto.
Qed.

Lemma filterM_elem_of p l r x :
  filterM p l = Ok r → x ∈ r ↔ x ∈ l ∧ p x = Ok true.
Proof.
  revert r. induction l as [|y l IH]; simpl; intros r Hr.
  - injection Hr as <-. split; [by intros ?%elem_of_nil|].
    by intros [?%elem_of_nil _].
  - apply bind_Ok in Hr as (b & Hb & Hr).
    apply bind_Ok in Hr as (r' & Hr' & [= <-]).
    specialize (IH r' Hr'). destruct b.
    + rewrite !elem_of_cons, IH. split.
      * intros [->|[? ?]]; auto.
      * intros [[->|?] ?]; auto.
    + rewrite elem_of_cons, IH. split.
      * intros [? ?]; auto.
      * intros [[->|?] ?]; [congruence | auto].
Qed.

(** A condition that never raises makes the comprehension return. *)
Lemma filterM_is_ok p l : (∀ x, x ∈ l → is_ok (p x)) → is_ok (filterM p l).
Proof.
  induction l as [|x l IH]; simpl; intros Hp; [apply is_ok_Ok|].
  destruct (Hp x) as [b ->]; [left|]. simpl.
  destruct IH as [r ->]; [intros; apply Hp; by right|]. apply is_ok_Ok.
Qed.

Lemma filterM_ext p q l :
  (∀ x, x ∈ l → p x = q x) → filterM p l = filterM q l.
Proof.
  induction l as [|x l IH]; simpl; intros Hpq; [done|].
  rewrite (Hpq x) by left. rewrite IH; [done|]. intros; apply Hpq; by right.
Qed.

(** Nothing passes a condition that is false everywhere. *)
Lemma filterM_none p l : (∀ x, x ∈ l → p x = Ok false) → filterM p l = Ok [].
Proof.
  induction l as [|x l IH]; simpl; intros Hp; [done|].
  rewrite (Hp x) by left. simpl. rewrite IH; [done|].
  intros; apply Hp; by right.
Qed.

(** Two conditions that never raise and always disagree split the list. *)
Lemma filterM_complement p q l :
  (∀ x, x ∈ l → ∃ b, p x = Ok b ∧ q x = Ok (negb b)) →
  ∃ w wo, filterM p l = Ok w ∧ filterM q l = Ok wo ∧ w ++ wo ≡ₚ l.
Proof.
  induction l as [|x l IH]; simpl; intros Hpq.
  - by exists [], [].
  - destruct (Hpq x) as (b & -> & ->); [left|].
    destruct IH as (w & wo & -> & -> & Hperm); [intros; apply Hpq; by right|].
    simpl. destruct b; simpl; eexists _, _; (split; [done|split; [done|]]).
    + simpl. by apply Permutation_skip.
    + simpl. by rewrite <- Permutation_middle; apply Permutation_skip.
Qed.

End FilterM.

(** ** The views of the collection *)

(** A view that tests the class first is the same comprehension run over
    [trails]: the entries of other classes are skipped before any of their
    accessors is called. *)
Lemma filterM_trail_and (c : TrailItem.t → result bool) (l : list TrailItem.t) :
  filterM (λ item, AreTrailsData.trail_and item (c item)) l =
  filterM c (filter (λ item, TrailItem.class_ item = "trail") l).
Proof.
  induction l as [|x l IH]; simpl; [done|].
  rewrite filter_cons. unfold AreTrailsData.trail_and at 1.
  destruct (decide (TrailItem.class_ x = "trail")) as [Heq|Hne].
  - rewrite Heq. simpl. by rewrite IH.
  - apply String.eqb_neq in Hne. rewrite Hne. simpl. rewrite IH.
    by destruct (filterM c _).
Qed.

Lemma trails_sublist (self : AreTrailsData.t) :
  AreTrailsData.trails self `sublist_of` AreTrailsData.items self.
Proof. apply sublist_filter. Qed.

Lemma elem_of_trails (self : AreTrailsData.t) (item : TrailItem.t) :
  item ∈ AreTrailsData.trails self ↔
  TrailItem.objectClass item = "trail" ∧ item ∈ AreTrailsData.items self.
Proof. unfold AreTrailsData.trails. by rewrite list_elem_of_filter. Qed.

(** What a view over the trails guarantees about the list it returns. *)
Lemma view_of_trails (self : AreTrailsData.t) (c : TrailItem.t → result bool)
    (l : list TrailItem.t) :
  filterM (λ item, AreTrailsData.trail_and item (c item))
          (AreTrailsData.items self) = Ok l →
  (l `sublist_of` AreTrailsData.trails self) ∧
  (l `sublist_of` AreTrailsData.items self) ∧
  ∀ item, item ∈ l ↔ item ∈ AreTrailsData.trails self ∧ c item = Ok true.
Proof.
  rewrite filterM_trail_and. fold (AreTrailsData.trails self). intros Hl.
  pose proof (filterM_sublist _ _ _ Hl) as Hsub.
  split; [done|]. split.
  - by etrans; [|apply trails_sublist].
  - intros item. by apply filterM_elem_of.
Qed.

Lemma is_nonempty_mapping_inv (v : pyval) :
  is_nonempty_mapping v = true → ∃ d, v = VDict d ∧ d ≠ ∅.
Proof.
  destruct v as [| | | | | |d]; simpl; try discriminate.
  intros Hd. exists d. split; [done|].
  apply negb_true_iff, bool_decide_eq_false in Hd. exact Hd.
Qed.

(** C7: an entry whose class is not ["trail"] is in none of the filtered
    views. *)
Theorem C7_other_classes_excluded (self : AreTrailsData.t) (item : TrailItem.t) :
  item ∈ AreTrailsData.items self →
  TrailItem.objectClass item ≠ "trail" →
  (item ∉ AreTrailsData.trails self) ∧
  excluded_from item (AreTrailsData.multitrails self) ∧
  excluded_from item (AreTrailsData.riding_trails self) ∧
  excluded_from item (AreTrailsData.bicycle_trails self) ∧
  excluded_from item (AreTrailsData.hiking_trails self) ∧
  excluded_from item (AreTrailsData.running_trails self) ∧
  excluded_from item (AreTrailsData.trails_with_activity self) ∧
  excluded_from item (AreTrailsData.trails_without_activity self) ∧
  excluded_from item (AreTrailsData.trails_with_unsupported_activity self).
Proof.
  intros _ Hclass.
  assert (Hout : item ∉ AreTrailsData.trails self).
  { rewrite elem_of_trails. by intros [? _]. }
  assert (Hview : ∀ c, excluded_from item
            (filterM (λ x, AreTrailsData.trail_and x (c x))
                     (AreTrailsData.items self))).
  { intros c l Hl Hin. apply view_of_trails in Hl as (_ & _ & Hl).
    apply Hl in Hin as [Hin _]. contradiction. }
  split; [exact Hout|]. repeat apply conj; apply Hview.
Qed.

(** C9: every filtered view keeps the order of the items list, and every
    view other than [trails] keeps the order of [trails]. *)
Theorem C9_views_in_source_order (self : AreTrailsData.t) :
  (AreTrailsData.trails self `sublist_of` AreTrailsData.items self) ∧
  in_source_order self (AreTrailsData.multitrails self) ∧
  in_source_order self (AreTrailsData.riding_trails self) ∧
  in_source_order self (AreTrailsData.bicycle_trails self) ∧
  in_source_order self (AreTrailsData.hiking_trails self) ∧
  in_source_order self (AreTrailsData.running_trails self) ∧
  in_source_order self (AreTrailsData.trails_with_activity self) ∧
  in_source_order self (AreTrailsData.trails_without_activity self) ∧
  in_source_order self (AreTrailsData.trails_with_unsupported_activity self).
Proof.
  assert (Hview : ∀ c, in_source_order self
            (filterM (λ x, AreTrailsData.trail_and x (c x))
                     (AreTrailsData.items self))).
  { intros c l Hl. apply view_of_trails in Hl. tauto. }
  split; [apply trails_sublist|]. repeat apply conj; apply Hview.
Qed.

(** On a trail with a non-empty mapping as content the two activity tests
    return, and return opposite answers. *)
Lemma activity_tests_disagree (item : TrailItem.t) :
  is_nonempty_mapping (TrailItem.content item) = true →
  ∃ b,
    (do a <- TrailItem.activity item; Ok (negb (eq_empty_dict a))) = Ok b ∧
    (do a <- TrailItem.activity item; Ok (eq_empty_dict a)) = Ok (negb b).
Proof.
  intros (d & Hc & Hd)%is_nonempty_mapping_inv.
  rewrite (activity_of_mapping item d Hc Hd). simpl.
  eexists. split; [done|]. by rewrite negb_involutive.
Qed.

(** C5: when every trail has a non-empty content, the two activity views
    return, every trail is in exactly one of them, and nothing else is in
    either. *)
Theorem C5_activity_partition (self : AreTrailsData.t) :
  (∀ item, item ∈ AreTrailsData.trails self →
     is_nonempty_mapping (TrailItem.content item) = true) →
  ∃ w wo,
    AreTrailsData.trails_with_activity self = Ok w ∧
    AreTrailsData.trails_without_activity self = Ok wo ∧
    w ++ wo ≡ₚ AreTrailsData.trails self ∧
    (∀ item, item ∈ AreTrailsData.trails self ↔ item ∈ w ∨ item ∈ wo) ∧
    (∀ item, ¬ (item ∈ w ∧ item ∈ wo)).
Proof.
  intros Hcontent.
  unfold AreTrailsData.trails_with_activity,
    AreTrailsData.trails_without_activity.
  rewrite !filterM_trail_and. fold (AreTrailsData.trails self).
  destruct (filterM_complement
    (λ item, do a <- TrailItem.activity item; Ok (negb (eq_empty_dict a)))
    (λ item, do a <- TrailItem.activity item; Ok (eq_empty_dict a))
    (AreTrailsData.trails self)) as (w & wo & Hw & Hwo & Hperm).
  { intros item Hin. by apply activity_tests_disagree, Hcontent. }
  exists w, wo. repeat split; try done.
  - intros Hin. apply elem_of_app. by rewrite Hperm.
  - intros Hin%elem_of_app. by rewrite Hperm in Hin.
  - intros item [Hin1 Hin2].
    apply (filterM_elem_of _ _ _ item Hw) in Hin1 as [Hin Hp].
    apply (filterM_elem_of _ _ _ item Hwo) in Hin2 as [_ Hq].
    destruct (activity_tests_disagree item (Hcontent item Hin))
      as (b & Hb & Hnb).
    rewrite Hp in Hb. rewrite Hq in Hnb. injection Hb as <-. discriminate Hnb.
Qed.

Lemma forallb_elem_of {A} (f : A → bool) (l : list A) :
  forallb f l = true → ∀ x, x ∈ l → f x = true.
Proof.
  intros Hall x Hin. apply list_elem_of_In in Hin.
  rewrite forallb_forall in Hall. by apply Hall.
Qed.

Lemma C7_other_classes_excluded_witness :
  (Sample.shelter ∉ AreTrailsData.trails Sample.catalog) ∧
  excluded_from Sample.shelter (AreTrailsData.multitrails Sample.catalog) ∧
  excluded_from Sample.shelter (AreTrailsData.riding_trails Sample.catalog) ∧
  excluded_from Sample.shelter (AreTrailsData.bicycle_trails Sample.catalog) ∧
  excluded_from Sample.shelter (AreTrailsData.hiking_trails Sample.catalog) ∧
  excluded_from Sample.shelter (AreTrailsData.running_trails Sample.catalog) ∧
  excluded_from Sample.shelter
    (AreTrailsData.trails_with_activity Sample.catalog) ∧
  excluded_from Sample.shelter
    (AreTrailsData.trails_without_activity Sample.catalog) ∧
  excluded_from Sample.shelter
    (AreTrailsData.trails_with_unsupported_activity Sample.catalog).
Proof.
  apply (C7_other_classes_excluded Sample.catalog Sample.shelter).
  - right; left.
  - simpl. discriminate.
Defined.

Lemma C5_activity_partition_witness :
  ∃ w wo,
    AreTrailsData.trails_with_activity Sample.catalog = Ok w ∧
    AreTrailsData.trails_without_activity Sample.catalog = Ok wo ∧
    w ++ wo ≡ₚ AreTrailsData.trails Sample.catalog ∧
    (∀ item, item ∈ AreTrailsData.trails Sample.catalog ↔
             item ∈ w ∨ item ∈ wo) ∧
    (∀ item, ¬ (item ∈ w ∧ item ∈ wo)).
Proof.
  apply (C5_activity_partition Sample.catalog).
  apply forallb_elem_of. vm_compute. reflexivity.
Defined.

Lemma returns_str_inv (r : result pyval) :
  returns_str r = true → ∃ k, r = Ok (VStr k).
Proof.
  destruct r as [v|e]; [|discriminate].
  destruct v; try discriminate. intros _. by eexists.
Qed.

(** The chain of tests of [trails_with_unsupported_activity] never answers
    [False]: when it gets as far as the bicycle test, that one is [True]. *)
Lemma supported_never_false (item : TrailItem.t) :
  orM (TrailItem.has_hike_activity item)
    (orM (TrailItem.has_riding_activity item)
       (orM (TrailItem.has_bike_activity item)
            (TrailItem.has_running_activity item))) ≠ Ok false.
Proof.
  destruct (TrailItem.has_hike_activity item) as [[]|]; simpl; try done.
  destruct (TrailItem.has_riding_activity item) as [[]|]; simpl; done.
Qed.

(** With a string as activity key the three substring tests return. *)
Lemma supported_of_str_key (item : TrailItem.t) (k : string) :
  TrailItem.activity_key item = Ok (VStr k) →
  orM (TrailItem.has_hike_activity item)
    (orM (TrailItem.has_riding_activity item)
       (orM (TrailItem.has_bike_activity item)
            (TrailItem.has_running_activity item))) = Ok true.
Proof.
  intros Hk.
  unfold TrailItem.has_hike_activity, TrailItem.has_riding_activity.
  rewrite Hk. simpl.
  destruct (str_contains "hiking" k); simpl; [done|].
  destruct (str_contains "riding" k); simpl; done.
Qed.

(** C6 (as amended): when every trail has a non-empty content and a string
    as activity key, [trails_with_unsupported_activity] is the empty list;
    and whatever the items are, a list it returns is empty. *)
Theorem C6_unsupported_activity_empty (self : AreTrailsData.t) :
  ((∀ item, item ∈ AreTrailsData.trails self →
      is_nonempty_mapping (TrailItem.content item) = true ∧
      ∃ k, TrailItem.activity_key item = Ok (VStr k)) →
   AreTrailsData.trails_with_unsupported_activity self = Ok []) ∧
  (∀ l, AreTrailsData.trails_with_unsupported_activity self = Ok l → l = []).
Proof.
  split.
  - intros Hkey. unfold AreTrailsData.trails_with_unsupported_activity.
    rewrite filterM_trail_and. fold (AreTrailsData.trails self).
    apply filterM_none. intros item Hin.
    destruct (Hkey item Hin) as (_ & k & Hk).
    by rewrite (supported_of_str_key item k Hk).
  - intros l Hl. apply view_of_trails in Hl as (_ & _ & Hl).
    destruct l as [|item l]; [done|]. exfalso.
    destruct (proj1 (Hl item)) as [_ Hc]; [left|].
    apply bind_Ok in Hc as (s & Hs & [= Hneg]).
    apply negb_true_iff in Hneg. subst s.
    by apply (supported_never_false item).
Qed.

Lemma C6_unsupported_activity_empty_witness :
  AreTrailsData.trails_with_unsupported_activity Sample.catalog = Ok [].
Proof.
  apply (proj1 (C6_unsupported_activity_empty Sample.catalog)).
  intros item Hin.
  assert (Hall : forallb (λ x,
            is_nonempty_mapping (TrailItem.content x) &&
            returns_str (TrailItem.activity_key x))
            (AreTrailsData.trails Sample.catalog) = true).
  { vm_compute. reflexivity. }
  apply (forallb_elem_of _ _ Hall) in Hin.
  apply andb_true_iff in Hin as [Hc Hk]. split; [exact Hc|].
  exact (returns_str_inv _ Hk).
Defined.

(** C6 (as stated) fails: a trail with the non-empty content
    [{"title": "Fen", "activity": {"key": null}}] makes the hiking test raise
    [TypeError], so the view raises instead of being the empty list. *)
Lemma C6_null_key_counterexample :
  ¬ (∀ self : AreTrailsData.t,
       (∀ item, item ∈ AreTrailsData.trails self →
          is_nonempty_mapping (TrailItem.content item) = true) →
       AreTrailsData.trails_with_unsupported_activity self = Ok []).
Proof.
  intros Hclaim.
  specialize (Hclaim (AreTrailsData.mk [Sample.null_key] VNone)).
  assert (Hraise : AreTrailsData.trails_with_unsupported_activity
            (AreTrailsData.mk [Sample.null_key] VNone) = Raise TypeError).
  { vm_compute. reflexivity. }
  rewrite Hraise in Hclaim. discriminate Hclaim.
  apply forallb_elem_of. vm_compute. reflexivity.
Qed.

(** ** Floats and integers *)

(** The float operations are written with the kernel's own integer
    functions; this states a goal with the library's. *)
Ltac to_binint :=
  change IntDef.Z.sub with Z.sub in *;
  change IntDef.Z.add with Z.add in *;
  change IntDef.Z.max with Z.max in *;
  change IntDef.Z.leb with Z.leb in *.

Lemma digits2_pos_size (p : positive) : digits2_pos p = Pos.size p.
Proof. induction p; simpl; congruence. Qed.

Lemma iter_xO_value (p k : positive) :
  Z.pos (Pos.iter xO p k) = Z.pos p * 2 ^ Z.pos k.
Proof.
  induction k as [|k IH] using Pos.peano_ind.
  - simpl. lia.
  - rewrite Pos.iter_succ, Pos2Z.inj_succ, Z.pow_succ_r by lia.
    rewrite Pos2Z.inj_xO, IH. lia.
Qed.

Lemma digits2_pos_iter_xO (p k : positive) :
  Z.pos (digits2_pos (Pos.iter xO p k)) = Z.pos (digits2_pos p) + Z.pos k.
Proof.
  induction k as [|k IH] using Pos.peano_ind.
  - simpl. lia.
  - rewrite Pos.iter_succ. simpl. lia.
Qed.

Lemma digits2_pos_bound (p : positive) :
  Z.pos p < 2 ^ 53 → 1 ≤ Z.pos (digits2_pos p) ≤ 53.
Proof.
  intros Hp. split; [lia|]. rewrite digits2_pos_size.
  pose proof (Pos.size_le p) as Hle.
  destruct (Z_le_gt_dec (Z.pos (Pos.size p)) 53) as [|Hgt]; [done|exfalso].
  assert (Hz : 2 ^ Z.pos (Pos.size p) ≤ Z.pos p~0).
  { rewrite <- Pos2Z.inj_pow. exact Hle. }
  assert (H54 : 2 ^ 54 ≤ 2 ^ Z.pos (Pos.size p)).
  { apply Z.pow_le_mono_r; lia. }
  lia.
Qed.

Lemma shiftl_iter_xO (p k : positive) :
  Z.shiftl (Z.pos (Pos.iter xO p k)) (Z.neg k) = Z.pos p.
Proof.
  change (Z.neg k) with (- Z.pos k).
  rewrite Z.shiftl_opp_r, Z.shiftr_div_pow2 by lia.
  rewrite iter_xO_value. apply Z.div_mul. lia.
Qed.

(** Rounding a mantissa that already has its canonical exponent keeps it. *)
Lemma binary_round_aux_canonical (s : bool) (m : positive) (e : Z) :
  fexp 53 1024 (Z.pos (digits2_pos m) + e) = e → e ≤ 971 →
  binary_round_aux 53 1024 s (Z.pos m) e loc_Exact = S754_finite s m e.
Proof.
  intros Hf He.
  assert (Hf0 : fexp 53 1024 (Z.pos (digits2_pos m) + e) - e = 0) by lia.
  unfold binary_round_aux, shr_fexp, shr. simpl Zdigits2. to_binint.
  rewrite Hf0.
  cbn [shr_m round_nearest_even loc_of_shr_record shr_record_of_loc Zdigits2].
  rewrite Hf0. cbn [shr_m shr_record_of_loc].
  replace (e <=? 1024 - 53) with true by (symmetry; apply Z.leb_le; lia).
  reflexivity.
Qed.

Lemma binary_round_exact (s : bool) (p : positive) :
  Z.pos p < 2 ^ 53 →
  ∃ m e, binary_round 53 1024 s p 0 = S754_finite s m e ∧
         Z.shiftl (Z.pos m) e = Z.pos p.
Proof.
  intros Hp. pose proof (digits2_pos_bound p Hp) as Hd.
  unfold binary_round, shl_align. to_binint.
  rewrite Z.add_0_r, Z.sub_0_r.
  assert (Hfexp : fexp 53 1024 (Z.pos (digits2_pos p))
                  = Z.pos (digits2_pos p) - 53).
  { unfold fexp, emin. lia. }
  rewrite Hfexp.
  destruct (Z.pos (digits2_pos p) - 53) as [|k|k] eqn:Hk; [| lia |].
  - exists p, 0. split; [|reflexivity].
    apply binary_round_aux_canonical; [|lia].
    rewrite Z.add_0_r, Hfexp. reflexivity.
  - exists (Pos.iter xO p k), (Z.neg k). split; [|apply shiftl_iter_xO].
    apply binary_round_aux_canonical; [|lia].
    rewrite digits2_pos_iter_xO. unfold fexp, emin. lia.
Qed.

(** An integer below [2^53] in magnitude is a float, and [int] gives it
    back. *)
Lemma int_of_float_of_Z `{FloatParser} (n : Z) :
  Z.abs n < 2 ^ 53 →
  py_float (VInt n) = Ok (float_of_Z n) ∧
  py_int_of_float (float_of_Z n) = Ok n.
Proof.
  intros Hn. unfold py_float. destruct n as [|p|p].
  - split; reflexivity.
  - unfold float_of_Z, binary_normalize.
    destruct (binary_round_exact false p) as (m & e & -> & Hv); [lia|].
    simpl. by rewrite Hv.
  - unfold float_of_Z, binary_normalize.
    destruct (binary_round_exact true p) as (m & e & -> & Hv); [lia|].
    simpl. by rewrite Hv.
Qed.

(** Dropping the fraction is the floor of a positive float and the ceiling
    of a negative one. *)
Lemma int_of_float_finite (s : bool) (m : positive) (e : Z) :
  py_int_of_float (S754_finite s m e) =
  Ok (if s then Qceiling (SF2Q (S754_finite s m e))
      else Qfloor (SF2Q (S754_finite s m e))).
Proof.
  unfold py_int_of_float. f_equal.
  destruct e as [|p|p]; destruct s; unfold SF2Q, cond_Zopp;
    change IntDef.Z.opp with Z.opp;
    rewrite ?Qceiling_Z, ?Qfloor_Z, ?Z.shiftl_0_r,
      ?(Z.shiftl_mul_pow2 _ (Z.pos p)) by lia;
    try lia.
  - change (Z.neg p) with (- Z.pos p).
    rewrite Z.shiftl_opp_r, Z.shiftr_div_pow2 by lia.
    unfold Qceiling, Qfloor. cbn [Qopp Qnum Qden].
    rewrite Z.opp_involutive, Pos2Z.inj_pow. reflexivity.
  - change (Z.neg p) with (- Z.pos p).
    rewrite Z.shiftl_opp_r, Z.shiftr_div_pow2 by lia.
    unfold Qfloor. rewrite Pos2Z.inj_pow. reflexivity.
Qed.

(** ** Length *)

Lemma getitem_mapping (d : gmap string pyval) (key : string) :
  getitem (VDict d) key =
  match d !! key with
  | Some x => Ok x
  | None => Raise (KeyError key)
  end.
Proof. reflexivity. Qed.

(** C2 (as amended): with a mapping as properties, [length] and
    [length_in_km] raise [KeyError] when [trailDistanceMeter] is absent;
    both return 0 when it is present and falsy (null, zero, false, empty);
    for a finite non-zero float [length] drops the fraction towards zero
    (the floor of a positive distance, the ceiling of a negative one) and
    [length_in_km] is the distance divided by 1000 and rounded to one
    decimal; for a non-zero integer below [2^53] in magnitude [length] is
    that integer and [length_in_km] its float divided by 1000 and rounded
    to one decimal. *)
Theorem C2_length_of_distance `{FloatParser} (self : TrailItem.t)
    (props : gmap string pyval) :
  TrailItem.properties self = VDict props →
  (props !! "trailDistanceMeter" = None →
     TrailItem.length self = Raise (KeyError "trailDistanceMeter") ∧
     TrailItem.length_in_km self = Raise (KeyError "trailDistanceMeter")) ∧
  (∀ d, props !! "trailDistanceMeter" = Some d → truthy d = false →
     TrailItem.length self = Ok 0 ∧
     TrailItem.length_in_km self = Ok (VInt 0)) ∧
  (∀ s m e,
     props !! "trailDistanceMeter" = Some (VFloat (S754_finite s m e)) →
     TrailItem.length self =
       Ok (if s then Qceiling (SF2Q (S754_finite s m e))
           else Qfloor (SF2Q (S754_finite s m e))) ∧
     TrailItem.length_in_km self =
       Ok (VFloat (py_round1
                     (SFdiv 53 1024 (S754_finite s m e) (float_of_Z 1000))))) ∧
  (∀ n, props !! "trailDistanceMeter" = Some (VInt n) →
     n ≠ 0 → Z.abs n < 2 ^ 53 →
     TrailItem.length self = Ok n ∧
     TrailItem.length_in_km self =
       Ok (VFloat (py_round1
                     (SFdiv 53 1024 (float_of_Z n) (float_of_Z 1000))))).
Proof.
  intros Hprops. unfold TrailItem.length, TrailItem.length_in_km.
  rewrite Hprops, getitem_mapping. repeat apply conj.
  - intros ->. split; reflexivity.
  - intros d -> Hd. cbn [bind]. rewrite Hd. split; reflexivity.
  - intros s m e ->. cbn [bind truthy py_float].
    rewrite int_of_float_finite. split; reflexivity.
  - intros n -> Hn0 Hn. cbn [bind truthy].
    apply Z.eqb_neq in Hn0. rewrite Hn0. cbn [negb].
    destruct (int_of_float_of_Z n Hn) as [-> Hint]. cbn [bind].
    split; [exact Hint|reflexivity].
Qed.

Lemma C2_length_of_distance_witness :
  @TrailItem.length Sample.no_numeric_strings Sample.unmeasured
    = Raise (KeyError "trailDistanceMeter") ∧
  @TrailItem.length Sample.no_numeric_strings Sample.unlabelled = Ok 0 ∧
  @TrailItem.length Sample.no_numeric_strings Sample.downhill = Ok (-1) ∧
  @TrailItem.length Sample.no_numeric_strings Sample.loop_a = Ok 3500 ∧
  @TrailItem.length_in_km Sample.no_numeric_strings Sample.loop_a
    = Ok (VFloat (S754_finite false 7881299347898368 (-51))).
Proof.
  repeat apply conj.
  - refine (proj1 (proj1 (@C2_length_of_distance Sample.no_numeric_strings
              Sample.unmeasured {[ "isMultiTrail" := VBool false ]} _) _)).
    + reflexivity.
    + vm_compute. reflexivity.
  - refine (proj1 (proj1 (proj2 (@C2_length_of_distance
              Sample.no_numeric_strings Sample.unlabelled
              {[ "isMultiTrail" := VBool false;
                 "trailDistanceMeter" := VNone ]} _)) VNone _ _)).
    + reflexivity.
    + vm_compute. reflexivity.
    + reflexivity.
  - refine (proj1 (proj1 (proj2 (proj2 (@C2_length_of_distance
              Sample.no_numeric_strings Sample.downhill
              {[ "isMultiTrail" := VBool false;
                 "trailDistanceMeter" := VFloat Sample.minus_three_halves ]}
              _))) true 3%positive (-1) _)).
    + reflexivity.
    + vm_compute. reflexivity.
  - refine (proj1 (proj2 (proj2 (proj2 (@C2_length_of_distance
              Sample.no_numeric_strings Sample.loop_a
              {[ "isMultiTrail" := VBool false;
                 "trailDistanceMeter" := VInt 3500;
                 "trailNumber" := VStr "12" ]} _))) 3500 _ _ _)).
    + reflexivity.
    + vm_compute. reflexivity.
    + discriminate.
    + reflexivity.
  - refine (proj2 (proj2 (proj2 (proj2 (@C2_length_of_distance
              Sample.no_numeric_strings Sample.loop_a
              {[ "isMultiTrail" := VBool false;
                 "trailDistanceMeter" := VInt 3500;
                 "trailNumber" := VStr "12" ]} _))) 3500 _ _ _)).
    + reflexivity.
    + vm_compute. reflexivity.
    + discriminate.
    + reflexivity.
Defined.

(** C2 (as stated) fails twice.  A trail whose properties have no
    [trailDistanceMeter] makes [length] and [length_in_km] raise [KeyError]
    instead of returning 0; and for the distance -1.5, whose floor is -2,
    [length] is -1. *)
Lemma C2_absent_distance_counterexample :
  (∃ props, TrailItem.properties Sample.unmeasured = VDict props ∧
            props !! "trailDistanceMeter" = None) ∧
  @TrailItem.length Sample.no_numeric_strings Sample.unmeasured ≠ Ok 0 ∧
  @TrailItem.length_in_km Sample.no_numeric_strings Sample.unmeasured
    ≠ Ok (VInt 0) ∧
  getitem (TrailItem.properties Sample.downhill) "trailDistanceMeter"
    = Ok (VFloat Sample.minus_three_halves) ∧
  Qfloor (SF2Q Sample.minus_three_halves) = -2 ∧
  @TrailItem.length Sample.no_numeric_strings Sample.downhill = Ok (-1).
Proof.
  repeat apply conj.
  - eexists. split; [reflexivity|]. vm_compute. reflexivity.
  - vm_compute. discriminate.
  - vm_compute. discriminate.
  - vm_compute. reflexivity.
  - vm_compute. reflexivity.
  - vm_compute. reflexivity.
Qed.

(** ** Parsing the payload *)

Section MapM.
Context {A B : Type} (f : A → result B).

Lemma mapM_Ok (l : list A) (r : list B) :
  AreTrailsData.mapM f l = Ok r ↔ Forall2 (λ x y, f x = Ok y) l r.
Proof.
  revert r. induction l as [|x l IH]; simpl; intros r; split.
  - intros [= <-]. constructor.
  - intros Hr. by inversion Hr.
  - intros (y & Hy & Hr)%bind_Ok.
    apply bind_Ok in Hr as (r' & Hr' & [= <-]).
    constructor; [done|]. by apply IH.
  - intros Hr. inversion Hr as [|? y ? r' Hy Hr']; subst.
    rewrite Hy. simpl. apply IH in Hr'. by rewrite Hr'.
Qed.

Lemma mapM_all_ok (l : list A) :
  (∀ x, x ∈ l → is_ok (f x)) → is_ok (AreTrailsData.mapM f l).
Proof.
  induction l as [|x l IH]; simpl; intros Hf; [apply is_ok_Ok|].
  destruct (Hf x) as [y ->]; [left|]. simpl.
  destruct IH as [r ->]; [intros; apply Hf; by right|]. apply is_ok_Ok.
Qed.

(** One failing element fails the whole list, with the error of an
    element of the list. *)
Lemma mapM_Raise (l : list A) (x : A) :
  x ∈ l → ¬ is_ok (f x) →
  ∃ e x', AreTrailsData.mapM f l = Raise e ∧ x' ∈ l ∧ f x' = Raise e.
Proof.
  induction l as [|y l IH]; intros Hin Hx; [by apply elem_of_nil in Hin|].
  simpl. destruct (f y) as [b|e] eqn:Hy.
  - apply elem_of_cons in Hin as [->|Hin].
    { exfalso. apply Hx. rewrite Hy. apply is_ok_Ok. }
    destruct (IH Hin Hx) as (e & x' & -> & Hin' & Hx').
    exists e, x'. repeat split; [by right|done].
  - exists e, y. repeat split; [left|done].
Qed.

End MapM.

(** On a JSON object the constructor can only fail in the validation. *)
Lemma new_TrailItem_mapping `{Pydantic} (el : pyval) (e : pyerr) :
  is_mapping el = true → AreTrailsData.new_TrailItem el = Raise e →
  e = ValidationError.
Proof.
  destruct el; try discriminate. intros _. simpl.
  destruct (TrailItem_init d); [discriminate|]. by intros [= <-].
Qed.

(** C4: with the payload's [items] an array of JSON objects, one element
    the constructor rejects makes [parse_items] fail with the validation
    error and leaves the object, and so its items list, as it was (this
    part, the error's kind apart, holds for elements of any kind); when
    every element is accepted, the items list holds the constructed items,
    one per element and in the order of the array. *)
Theorem C4_parse_items `{Pydantic} (self : AreTrailsData.t)
    (elems : list pyval) :
  getitem (AreTrailsData.data self) "items" = Ok (VList elems) →
  ((∃ el, el ∈ elems ∧ ¬ is_ok (AreTrailsData.new_TrailItem el)) →
     (∃ e, AreTrailsData.parse_items self = (Raise e, self)) ∧
     (Forall (λ el, is_mapping el = true) elems →
      AreTrailsData.parse_items self = (Raise ValidationError, self))) ∧
  ((∀ el, el ∈ elems → is_ok (AreTrailsData.new_TrailItem el)) →
     ∃ built,
       AreTrailsData.parse_items self
         = (Ok (), AreTrailsData.mk built (AreTrailsData.data self)) ∧
       Forall2 (λ el item, AreTrailsData.new_TrailItem el = Ok item)
               elems built).
Proof.
  intros Hitems. unfold AreTrailsData.parse_items. rewrite Hitems.
  cbn [bind AreTrailsData.py_iter]. split.
  - intros (el & Hin & Hfail).
    destruct (mapM_Raise AreTrailsData.new_TrailItem elems el Hin Hfail)
      as (e & el' & -> & Hin' & Hel').
    split; [by exists e|]. intros Hobj.
    rewrite Forall_forall in Hobj.
    by rewrite (new_TrailItem_mapping el' e (Hobj el' Hin') Hel').
  - intros Hall.
    destruct (mapM_all_ok AreTrailsData.new_TrailItem elems Hall)
      as [built Hbuilt].
    exists built. rewrite Hbuilt. split; [done|]. by apply mapM_Ok.
Qed.

Lemma C4_parse_items_witness :
  @AreTrailsData.parse_items declared_fields
     (AreTrailsData.mk [Sample.shelter] Sample.broken_payload)
   = (Raise ValidationError,
      AreTrailsData.mk [Sample.shelter] Sample.broken_payload) ∧
  ∃ built,
    @AreTrailsData.parse_items declared_fields
       (AreTrailsData.mk [Sample.shelter] Sample.payload)
     = (Ok (), AreTrailsData.mk built Sample.payload) ∧
    Forall2 (λ el item, @AreTrailsData.new_TrailItem declared_fields el
                        = Ok item)
      [Sample.raw_item "a1" "trail"; Sample.raw_item "c3" "poi"] built.
Proof.
  split.
  - refine (proj2 (proj1 (@C4_parse_items declared_fields
              (AreTrailsData.mk [Sample.shelter] Sample.broken_payload)
              [Sample.raw_item "a1" "trail";
               VDict {[ "objectClass" := VStr "trail" ]};
               Sample.raw_item "c3" "poi"] _) _) _).
    + vm_compute. reflexivity.
    + exists (VDict {[ "objectClass" := VStr "trail" ]}). split.
      * right; left.
      * intros [item Hitem]. vm_compute in Hitem. discriminate Hitem.
    + repeat constructor.
  - refine (proj2 (@C4_parse_items declared_fields
              (AreTrailsData.mk [Sample.shelter] Sample.payload)
              [Sample.raw_item "a1" "trail"; Sample.raw_item "c3" "poi"] _) _).
    + vm_compute. reflexivity.
    + apply Forall_forall. repeat constructor; eexists; vm_compute; reflexivity.
Defined.

(** ** The CSV export *)

(** The header line is the field names. *)
Lemma writerow_header (out : list csv_row) :
  AreTrailsData.writerow out AreTrailsData.header
  = Ok (out ++ [header_row]).
Proof. vm_compute. reflexivity. Qed.

(** A row dict has exactly the field names as keys, so it is written as its
    seven values in the order of the columns. *)
Lemma dict_to_list_row (title number activity_key multitrail length url gpx
    : pyval) :
  AreTrailsData.dict_to_list
    (list_to_map
       [("title", title); ("number", number); ("activity_key", activity_key);
        ("multitrail", multitrail); ("length", length); ("url", url);
        ("gpx", gpx)])
  = Ok [title; number; activity_key; multitrail; length; url; gpx].
Proof. vm_compute. reflexivity. Qed.

Lemma write_row_of_trail `{FloatParser} (trail : TrailItem.t)
    (out : list csv_row) :
  row_accessors_return trail →
  ∃ row, row_of_trail trail row ∧
    (do d <- AreTrailsData.row_dict trail; AreTrailsData.writerow out d)
    = Ok (out ++ [row]).
Proof.
  intros ([t Ht] & [n Hn] & [k Hk] & [m Hm] & [l Hl]).
  eexists. split.
  - exists t, n, k, m, l. repeat split; try done.
  - unfold AreTrailsData.row_dict. rewrite Ht, Hn, Hk, Hm, Hl.
    cbn [bind]. unfold AreTrailsData.writerow.
    by rewrite dict_to_list_row.
Qed.

Lemma write_trails_rows `{FloatParser} (ts : list TrailItem.t)
    (out : list csv_row) :
  (∀ trail, trail ∈ ts → row_accessors_return trail) →
  ∃ rows, AreTrailsData.write_trails ts out = (Ok (), out ++ rows) ∧
          Forall2 row_of_trail ts rows.
Proof.
  revert out. induction ts as [|trail ts IH]; intros out Hall.
  - exists []. split; [by rewrite app_nil_r|constructor].
  - destruct (write_row_of_trail trail out) as (row & Hrow & Hw).
    { apply Hall. left. }
    destruct (IH (out ++ [row])) as (rows & Hrows & Hall').
    { intros; apply Hall; by right. }
    exists (row :: rows). cbn [AreTrailsData.write_trails].
    rewrite Hw, Hrows, <- app_assoc. split; [done|by constructor].
Qed.

Lemma export_unfold `{FloatParser} (self : AreTrailsData.t) :
  AreTrailsData.export_trails_to_csv self
  = AreTrailsData.write_trails (AreTrailsData.trails self) [header_row].
Proof.
  unfold AreTrailsData.export_trails_to_csv.
  by rewrite writerow_header.
Qed.

(** C8: when the row accessors return on every trail, the export writes
    the header row with the seven column names and then one row per item of
    [trails], in the order of [trails]: [1 + length trails] rows. *)
Theorem C8_export_rows `{FloatParser} (self : AreTrailsData.t) :
  (∀ trail, trail ∈ AreTrailsData.trails self → row_accessors_return trail) →
  ∃ rows,
    AreTrailsData.export_trails_to_csv self
      = (Ok (),
         header_row :: rows) ∧
    Forall2 row_of_trail (AreTrailsData.trails self) rows ∧
    List.length (AreTrailsData.export_trails_to_csv self).2
      = S (List.length (AreTrailsData.trails self)).
Proof.
  intros Hall. rewrite export_unfold.
  destruct (write_trails_rows (AreTrailsData.trails self) [header_row] Hall)
    as (rows & Hw & Hrows).
  exists rows. rewrite Hw. repeat split; [done|].
  cbn [snd app List.length]. f_equal. symmetry.
  by apply Forall2_length in Hrows.
Qed.

Lemma C8_export_rows_witness :
  ∃ rows,
    @AreTrailsData.export_trails_to_csv Sample.no_numeric_strings Sample.catalog
      = (Ok (),
         header_row :: rows) ∧
    Forall2 (@row_of_trail Sample.no_numeric_strings)
      (AreTrailsData.trails Sample.catalog) rows ∧
    List.length (@AreTrailsData.export_trails_to_csv
                   Sample.no_numeric_strings Sample.catalog).2
      = S (List.length (AreTrailsData.trails Sample.catalog)).
Proof.
  apply (@C8_export_rows Sample.no_numeric_strings Sample.catalog).
  assert (Hall : Forall (@row_accessors_return Sample.no_numeric_strings)
                   (AreTrailsData.trails Sample.catalog)).
  { change (AreTrailsData.trails Sample.catalog)
      with [Sample.loop_a; Sample.loop_b; Sample.unlabelled].
    repeat constructor; eexists; vm_compute; reflexivity. }
  intros trail Hin. rewrite Forall_forall in Hall. by apply Hall.
Defined.

Lemma C9_views_in_source_order_witness :
  (AreTrailsData.trails Sample.catalog
     `sublist_of` AreTrailsData.items Sample.catalog) ∧
  ([Sample.loop_b] `sublist_of` AreTrailsData.items Sample.catalog) ∧
  ([Sample.loop_b] `sublist_of` AreTrailsData.trails Sample.catalog) ∧
  ([Sample.loop_a; Sample.unlabelled]
     `sublist_of` AreTrailsData.trails Sample.catalog) ∧
  ([Sample.loop_b] `sublist_of` AreTrailsData.trails Sample.catalog).
Proof.
  pose proof (C9_views_in_source_order Sample.catalog)
    as (Htrails & Hmulti & _ & _ & _ & _ & Hwith & Hwithout & _).
  split; [exact Htrails|].
  destruct (Hmulti [Sample.loop_b]) as [Hitems Hsub];
    [vm_compute; reflexivity|].
  destruct (Hwith [Sample.loop_a; Sample.unlabelled]) as [_ Hsub'];
    [vm_compute; reflexivity|].
  destruct (Hwithout [Sample.loop_b]) as [_ Hsub''];
    [vm_compute; reflexivity|].
  repeat split; assumption.
Defined.

(** ** Substrings *)

Lemma prefix_spec (needle hay : string) :
  String.prefix needle hay = true ↔ ∃ post, hay = needle +:+ post.
Proof.
  revert hay. induction needle as [|a needle IH]; intros [|b hay]; simpl.
  - split; [by exists ""|done].
  - split; [by exists (String b hay)|done].
  - split; [done|]. by intros [post [=]].
  - destruct (Ascii.ascii_dec a b) as [->|Hne].
    + rewrite IH. split.
      * intros [post ->]. by exists post.
      * intros [post [= ->]]. by exists post.
    + split; [done|]. intros [post [= -> _]]. done.
Qed.

Lemma str_contains_spec (needle hay : string) :
  str_contains needle hay = true ↔ occurs_in needle hay.
Proof.
  unfold occurs_in. induction hay as [|c hay IH]; cbn [str_contains].
  - destruct (String.prefix needle "") eqn:Hp.
    + split; [|done]. intros _. apply prefix_spec in Hp as [post Hp].
      exists "", post. exact Hp.
    + split; [done|]. intros (pre & post & Heq).
      destruct pre; [|done]. simpl in Heq.
      assert (String.prefix needle "" = true) as Hp'
        by (apply prefix_spec; by exists post).
      congruence.
  - destruct (String.prefix needle (String c hay)) eqn:Hp.
    + split; [|done]. intros _. apply prefix_spec in Hp as [post Hp].
      exists "", post. exact Hp.
    + rewrite IH. split.
      * intros (pre & post & ->). by exists (String c pre), post.
      * intros (pre & post & Heq). destruct pre as [|c' pre].
        -- simpl in Heq.
           assert (String.prefix needle (String c hay) = true) as Hp'
             by (apply prefix_spec; by exists post).
           congruence.
        -- injection Heq as -> ->. by exists pre, post.
Qed.

Lemma str_contains_empty_hay (needle : string) :
  needle ≠ "" → str_contains needle "" = false.
Proof. by destruct needle. Qed.

(** ** The activity of a trail item *)

(** X1: when the activity key is a string, each of the hiking, riding and
    running tests returns, and answers [True] exactly when its word occurs
    somewhere in the key. *)
Theorem X1_activity_tests_are_substring_tests (self : TrailItem.t)
    (k : string) :
  TrailItem.activity_key self = Ok (VStr k) →
  (∃ b, TrailItem.has_hike_activity self = Ok b ∧
        (b = true ↔ occurs_in "hiking" k)) ∧
  (∃ b, TrailItem.has_riding_activity self = Ok b ∧
        (b = true ↔ occurs_in "riding" k)) ∧
  (∃ b, TrailItem.has_running_activity self = Ok b ∧
        (b = true ↔ occurs_in "running" k)).
Proof.
  intros Hk.
  unfold TrailItem.has_hike_activity, TrailItem.has_riding_activity,
    TrailItem.has_running_activity.
  rewrite Hk. cbn [bind py_in].
  repeat apply conj;
    [exists (str_contains "hiking" k)
    |exists (str_contains "riding" k)
    |exists (str_contains "running" k)];
    (split; [by destruct (str_contains _ k)|apply str_contains_spec]).
Qed.

Lemma X1_activity_tests_are_substring_tests_witness :
  (∃ b, TrailItem.has_hike_activity Sample.loop_a = Ok b ∧
        (b = true ↔ occurs_in "hiking" "hiking-easy")) ∧
  (∃ b, TrailItem.has_riding_activity Sample.loop_a = Ok b ∧
        (b = true ↔ occurs_in "riding" "hiking-easy")) ∧
  (∃ b, TrailItem.has_running_activity Sample.loop_a = Ok b ∧
        (b = true ↔ occurs_in "running" "hiking-easy")).
Proof.
  apply (X1_activity_tests_are_substring_tests Sample.loop_a "hiking-easy").
  vm_compute. reflexivity.
Defined.

Lemma activity_key_of_mapping (self : TrailItem.t) (d : gmap string pyval) :
  TrailItem.content self = VDict d → d ≠ ∅ →
  TrailItem.activity_key self =
  if truthy (activity_of d) then py_get (activity_of d) "key" (VStr "")
  else Ok (VStr "").
Proof.
  intros Hc Hd. unfold TrailItem.activity_key.
  rewrite (activity_of_mapping self d Hc Hd). reflexivity.
Qed.

Lemma activity_key_falsy_content (self : TrailItem.t) :
  truthy (TrailItem.content self) = false →
  TrailItem.activity_key self = Raise (ValueError "no self.content").
Proof.
  intros Ht. unfold TrailItem.activity_key, TrailItem.activity.
  by rewrite Ht.
Qed.

Lemma activity_key_not_mapping (self : TrailItem.t) :
  truthy (TrailItem.content self) = true →
  is_mapping (TrailItem.content self) = false →
  TrailItem.activity_key self = Raise AttributeError.
Proof.
  intros Ht Hm. unfold TrailItem.activity_key, TrailItem.activity.
  rewrite Ht. by destruct (TrailItem.content self).
Qed.

Lemma py_get_returns (v : pyval) (key : string) (dflt : pyval) :
  is_ok (py_get v key dflt) ↔ is_mapping v = true.
Proof.
  destruct v; simpl; split; try done; try by intros [? ?].
  intros _. apply is_ok_Ok.
Qed.

Lemma py_get_raises (v : pyval) (key : string) (dflt : pyval) (e : pyerr) :
  py_get v key dflt = Raise e → e = AttributeError.
Proof. destruct v; simpl; congruence. Qed.

(** X2: [activity_key] returns exactly when the content is a non-empty
    mapping whose activity is falsy (absent, null, empty) or a mapping; a
    falsy content makes it raise the missing-content [ValueError], and
    every other failure is an [AttributeError]. *)
Theorem X2_activity_key_returns (self : TrailItem.t) :
  (is_ok (TrailItem.activity_key self) ↔
   ∃ d, TrailItem.content self = VDict d ∧ d ≠ ∅ ∧
        (truthy (activity_of d) = false ∨ is_mapping (activity_of d) = true)) ∧
  (∀ e, TrailItem.activity_key self = Raise e →
     (truthy (TrailItem.content self) = false ∧
      e = ValueError "no self.content") ∨
     (truthy (TrailItem.content self) = true ∧ e = AttributeError)).
Proof.
  destruct (truthy (TrailItem.content self)) eqn:Ht.
  - destruct (TrailItem.content self) as [| | | | | |d] eqn:Hc;
      try (rewrite activity_key_not_mapping by (by rewrite Hc);
           split; [split; [by intros [? ?]|by intros (? & [=] & _)]
                  |intros e [= <-]; by right]).
    assert (Hd : d ≠ ∅).
    { simpl in Ht. apply negb_true_iff, bool_decide_eq_false in Ht. done. }
    rewrite (activity_key_of_mapping self d Hc Hd). split.
    + split.
      * intros Hok. exists d. repeat split; [done|].
        destruct (truthy (activity_of d)); [right|by left].
        by apply py_get_returns in Hok.
      * intros (d' & [= <-] & _ & [Hf|Hm]).
        -- rewrite Hf. apply is_ok_Ok.
        -- destruct (truthy (activity_of d)); [|apply is_ok_Ok].
           by apply py_get_returns.
    + intros e He. right. split; [done|].
      destruct (truthy (activity_of d)); [|done].
      by apply py_get_raises in He.
  - rewrite (activity_key_falsy_content self Ht). split.
    + split; [by intros [? ?]|].
      intros (d & Hc & Hd & _). rewrite Hc, (truthy_dict d Hd) in Ht. done.
    + intros e [= <-]. by left.
Qed.

Lemma X2_activity_key_returns_witness :
  is_ok (TrailItem.activity_key Sample.unlabelled).
Proof.
  apply (proj2 (proj1 (X2_activity_key_returns Sample.unlabelled))).
  exists {[ "title" := VStr "Ridge";
            "activity" := VDict {[ "value" := VStr "Easy" ]} ]}.
  split; [reflexivity|]. split; [apply insert_non_empty|].
  right. vm_compute. reflexivity.
Defined.

(** ** More on comprehensions *)

Section FilterMore.
Context {A : Type}.
Implicit Types (p q : A → result bool) (l r : list A).

(** Everything passes a condition that is true everywhere. *)
Lemma filterM_all p l : (∀ x, x ∈ l → p x = Ok true) → filterM p l = Ok l.
Proof.
  induction l as [|x l IH]; simpl; intros Hp; [done|].
  rewrite (Hp x) by left. simpl. rewrite IH; [done|].
  intros; apply Hp; by right.
Qed.

(** A comprehension returns exactly when its condition raises on no
    element. *)
Lemma filterM_is_ok_iff p l :
  is_ok (filterM p l) ↔ ∀ x, x ∈ l → is_ok (p x).
Proof.
  split; [|apply filterM_is_ok].
  induction l as [|y l IH]; simpl; intros [r Hr] x Hin;
    [by apply elem_of_nil in Hin|].
  apply bind_Ok in Hr as (b & Hb & Hr).
  apply bind_Ok in Hr as (r' & Hr' & _).
  apply elem_of_cons in Hin as [->|Hin]; [by exists b|].
  apply IH; [by exists r'|done].
Qed.

(** The first element on which the condition raises decides the error. *)
Lemma filterM_first_error p l1 x l2 e :
  (∀ y, y ∈ l1 → is_ok (p y)) → p x = Raise e →
  filterM p (l1 ++ x :: l2) = Raise e.
Proof.
  induction l1 as [|y l1 IH]; simpl; intros Hok Hx.
  - by rewrite Hx.
  - destruct (Hok y) as [b ->]; [left|]. simpl.
    rewrite IH; [done| |done]. intros; apply Hok; by right.
Qed.

(** What passes a condition that implies another one is, in order, among
    what passes the other. *)
Lemma filterM_sublist_mono p q l r r' :
  (∀ x, x ∈ l → p x = Ok true → q x = Ok true) →
  filterM p l = Ok r → filterM q l = Ok r' → r `sublist_of` r'.
Proof.
  revert r r'. induction l as [|x l IH]; simpl; intros r r' Hpq Hr Hr'.
  - injection Hr as <-. apply sublist_nil_l.
  - apply bind_Ok in Hr as (b & Hb & Hr).
    apply bind_Ok in Hr as (s & Hs & [= <-]).
    apply bind_Ok in Hr' as (b' & Hb' & Hr').
    apply bind_Ok in Hr' as (s' & Hs' & [= <-]).
    assert (Hsub : s `sublist_of` s').
    { apply IH; [|done|done]. intros; apply Hpq; [by right|done]. }
    destruct b.
    + rewrite (Hpq x) in Hb' by (by left || done).
      injection Hb' as <-. by apply sublist_skip.
    + destruct b'; [by apply sublist_cons|done].
Qed.

End FilterMore.

(** A test that finds a word in the activity key finds an activity: the
    key of a falsy activity is the empty string. *)
Lemma word_in_key_has_activity (needle : string) (self : TrailItem.t) :
  needle ≠ "" →
  (do k <- TrailItem.activity_key self;
   do b <- py_in needle k;
   if b then Ok true else Ok false) = Ok true →
  ∃ a, TrailItem.activity self = Ok a ∧ eq_empty_dict a = false.
Proof.
  intros Hne. unfold TrailItem.activity_key.
  destruct (TrailItem.activity self) as [a|e]; [|done]. cbn [bind].
  destruct (truthy a) eqn:Ha.
  - intros _. exists a. split; [done|].
    destruct a; try done. simpl in *. by apply negb_true_iff in Ha.
  - cbn [bind py_in]. by rewrite (str_contains_empty_hay needle Hne).
Qed.

(** X3: the trails a hiking, riding or running view returns are, in order,
    among those [trails_with_activity] returns, and none of them is in
    [trails_without_activity]. *)
Theorem X3_tested_trails_have_activity (self : AreTrailsData.t)
    (l lw lwo : list TrailItem.t) :
  AreTrailsData.trails_with_activity self = Ok lw →
  AreTrailsData.trails_without_activity self = Ok lwo →
  AreTrailsData.hiking_trails self = Ok l ∨
  AreTrailsData.riding_trails self = Ok l ∨
  AreTrailsData.running_trails self = Ok l →
  (l `sublist_of` lw) ∧ ∀ item, item ∈ l → item ∉ lwo.
Proof.
  unfold AreTrailsData.trails_with_activity,
    AreTrailsData.trails_without_activity, AreTrailsData.hiking_trails,
    AreTrailsData.riding_trails, AreTrailsData.running_trails.
  rewrite !filterM_trail_and. fold (AreTrailsData.trails self).
  intros Hw Hwo Hl.
  assert (Hword : ∃ needle, needle ≠ "" ∧
            filterM (λ item,
              do k <- TrailItem.activity_key item;
              do b <- py_in needle k;
              if b then Ok true else Ok false)
              (AreTrailsData.trails self) = Ok l).
  { destruct Hl as [Hl|[Hl|Hl]];
      [exists "hiking"|exists "riding"|exists "running"]; by split. }
  clear Hl. destruct Hword as (needle & Hne & Hl). split.
  - eapply filterM_sublist_mono; [|exact Hl|exact Hw].
    intros item _ Hitem. cbv beta in Hitem.
    destruct (word_in_key_has_activity needle item Hne Hitem)
      as (a & -> & Ha).
    cbn [bind]. by rewrite Ha.
  - intros item Hin Hin'.
    apply (filterM_elem_of _ _ _ item Hl) in Hin as [_ Hitem].
    apply (filterM_elem_of _ _ _ item Hwo) in Hin' as [_ Hno].
    cbv beta in Hitem, Hno.
    destruct (word_in_key_has_activity needle item Hne Hitem)
      as (a & Ha & Hempty).
    rewrite Ha in Hno. cbn [bind] in Hno. congruence.
Qed.

Lemma X3_tested_trails_have_activity_witness :
  ([Sample.loop_a] `sublist_of` [Sample.loop_a; Sample.unlabelled]) ∧
  ∀ item, item ∈ [Sample.loop_a] → item ∉ [Sample.loop_b].
Proof.
  apply (X3_tested_trails_have_activity Sample.catalog).
  - vm_compute. reflexivity.
  - vm_compute. reflexivity.
  - left. vm_compute. reflexivity.
Defined.

(** X4: [bicycle_trails] never raises and is always the whole of [trails]:
    the bicycle test is true on every trail and looks at none of its
    fields. *)
Theorem X4_bicycle_trails_is_trails (self : AreTrailsData.t) :
  AreTrailsData.bicycle_trails self = Ok (AreTrailsData.trails self).
Proof.
  unfold AreTrailsData.bicycle_trails. rewrite filterM_trail_and.
  by apply filterM_all.
Qed.

Lemma filterM_Raise_elem {A} (p : A → result bool) (l : list A) (e : pyerr) :
  filterM p l = Raise e → ∃ x, x ∈ l ∧ p x = Raise e.
Proof.
  induction l as [|x l IH]; simpl; [done|].
  destruct (p x) as [b|e'] eqn:Hx; simpl.
  - destruct (filterM p l) as [r|e'']; [done|]. simpl. intros [= ->].
    destruct IH as (y & Hin & Hy); [done|]. exists y. split; [by right|done].
  - intros [= ->]. exists x. split; [left|done].
Qed.

Lemma getitem_returns (v : pyval) (key : string) :
  is_ok (getitem v key) ↔
  ∃ d x, v = VDict d ∧ d !! key = Some x.
Proof.
  destruct v as [| | | | | |d]; simpl;
    try (split; [by intros [? ?]|by intros (? & ? & [=] & _)]).
  destruct (d !! key) as [x|] eqn:Hx.
  - split; [|intros _; apply is_ok_Ok]. intros _. by exists d, x.
  - split; [by intros [? ?]|]. intros (d' & x & [= <-] & Hx'). congruence.
Qed.

Lemma getitem_raises (v : pyval) (key : string) (e : pyerr) :
  getitem v key = Raise e → e = TypeError ∨ e = KeyError key.
Proof.
  destruct v as [| | | | | |d]; simpl; try (intros [= <-]; by left).
  destruct (d !! key); [done|]. intros [= <-]. by right.
Qed.

(** X5: [multitrails] returns exactly when the properties of every trail
    are a mapping with the key [isMultiTrail]; when it raises, it raises
    [TypeError] (properties that are no mapping) or the [KeyError] of that
    key.  The entries of other classes play no part. *)
Theorem X5_multitrails_returns (self : AreTrailsData.t) :
  (is_ok (AreTrailsData.multitrails self) ↔
   ∀ item, item ∈ AreTrailsData.trails self →
     ∃ props v, TrailItem.properties item = VDict props ∧
                props !! "isMultiTrail" = Some v) ∧
  (∀ e, AreTrailsData.multitrails self = Raise e →
     e = TypeError ∨ e = KeyError "isMultiTrail").
Proof.
  unfold AreTrailsData.multitrails. rewrite filterM_trail_and.
  fold (AreTrailsData.trails self). split.
  - rewrite filterM_is_ok_iff.
    split; intros Hall item Hin; specialize (Hall item Hin).
    + apply getitem_returns. unfold TrailItem.is_multitrail in Hall.
      destruct (getitem _ _); [apply is_ok_Ok|by destruct Hall].
    + apply getitem_returns in Hall as [v Hv].
      unfold TrailItem.is_multitrail. rewrite Hv. apply is_ok_Ok.
  - intros e (item & _ & He)%filterM_Raise_elem.
    unfold TrailItem.is_multitrail in He.
    destruct (getitem _ _) as [v|e'] eqn:Hg; [done|].
    injection He as ->. by apply getitem_raises in Hg.
Qed.

Lemma X5_multitrails_returns_witness :
  is_ok (AreTrailsData.multitrails Sample.catalog).
Proof.
  apply (proj2 (proj1 (X5_multitrails_returns Sample.catalog))).
  assert (Hall : forallb (λ item,
            match getitem (TrailItem.properties item) "isMultiTrail" with
            | Ok _ => true
            | Raise _ => false
            end) (AreTrailsData.trails Sample.catalog) = true).
  { vm_compute. reflexivity. }
  intros item Hin. apply (forallb_elem_of _ _ Hall) in Hin.
  apply getitem_returns.
  destruct (getitem _ _); [apply is_ok_Ok|discriminate].
Defined.

Lemma activity_returns (item : TrailItem.t) :
  is_ok (TrailItem.activity item) ↔
  is_nonempty_mapping (TrailItem.content item) = true.
Proof.
  unfold TrailItem.activity.
  destruct (truthy (TrailItem.content item)) eqn:Ht.
  - destruct (TrailItem.content item) as [| | | | | |d]; simpl;
      try (split; [by intros [? ?]|done]).
    split; [done|]. intros _. apply is_ok_Ok.
  - split; [by intros [? ?]|].
    destruct (TrailItem.content item); simpl in *; congruence.
Qed.

(** X6: each of [trails_with_activity] and [trails_without_activity]
    returns exactly when every trail has a non-empty mapping as content, so
    each returns exactly when the other does. *)
Theorem X6_activity_views_return (self : AreTrailsData.t) :
  (is_ok (AreTrailsData.trails_with_activity self) ↔
   ∀ item, item ∈ AreTrailsData.trails self →
     is_nonempty_mapping (TrailItem.content item) = true) ∧
  (is_ok (AreTrailsData.trails_without_activity self) ↔
   ∀ item, item ∈ AreTrailsData.trails self →
     is_nonempty_mapping (TrailItem.content item) = true).
Proof.
  unfold AreTrailsData.trails_with_activity,
    AreTrailsData.trails_without_activity.
  rewrite !filterM_trail_and. fold (AreTrailsData.trails self).
  split; rewrite filterM_is_ok_iff;
    (split; intros Hall item Hin; specialize (Hall item Hin);
     [apply activity_returns; destruct (TrailItem.activity item);
        [apply is_ok_Ok|by destruct Hall]
     |apply activity_returns in Hall as [a ->]; apply is_ok_Ok]).
Qed.

Lemma X6_activity_views_return_witness :
  is_ok (AreTrailsData.trails_with_activity Sample.catalog) ∧
  is_ok (AreTrailsData.trails_without_activity Sample.catalog).
Proof.
  assert (Hall : ∀ item, item ∈ AreTrailsData.trails Sample.catalog →
            is_nonempty_mapping (TrailItem.content item) = true).
  { apply forallb_elem_of. vm_compute. reflexivity. }
  split.
  - exact (proj2 (proj1 (X6_activity_views_return Sample.catalog)) Hall).
  - exact (proj2 (proj2 (X6_activity_views_return Sample.catalog)) Hall).
Defined.

(** X7: the views and the export look at the trails only: two collections
    with the same [trails] give the same result in every view and the same
    file, whatever their other entries and their raw payload are. *)
Theorem X7_only_trails_matter `{FloatParser} (self other : AreTrailsData.t) :
  AreTrailsData.trails self = AreTrailsData.trails other →
  AreTrailsData.multitrails self = AreTrailsData.multitrails other ∧
  AreTrailsData.riding_trails self = AreTrailsData.riding_trails other ∧
  AreTrailsData.bicycle_trails self = AreTrailsData.bicycle_trails other ∧
  AreTrailsData.hiking_trails self = AreTrailsData.hiking_trails other ∧
  AreTrailsData.running_trails self = AreTrailsData.running_trails other ∧
  AreTrailsData.trails_with_activity self
    = AreTrailsData.trails_with_activity other ∧
  AreTrailsData.trails_without_activity self
    = AreTrailsData.trails_without_activity other ∧
  AreTrailsData.trails_with_unsupported_activity self
    = AreTrailsData.trails_with_unsupported_activity other ∧
  AreTrailsData.export_trails_to_csv self
    = AreTrailsData.export_trails_to_csv other.
Proof.
  intros Htrails.
  unfold AreTrailsData.multitrails, AreTrailsData.riding_trails,
    AreTrailsData.bicycle_trails, AreTrailsData.hiking_trails,
    AreTrailsData.running_trails, AreTrailsData.trails_with_activity,
    AreTrailsData.trails_without_activity,
    AreTrailsData.trails_with_unsupported_activity,
    AreTrailsData.export_trails_to_csv.
  rewrite !filterM_trail_and.
  fold (AreTrailsData.trails self). fold (AreTrailsData.trails other).
  rewrite Htrails. repeat split.
Qed.

Lemma X7_only_trails_matter_witness :
  AreTrailsData.multitrails Sample.catalog
    = AreTrailsData.multitrails
        (AreTrailsData.mk [Sample.loop_a; Sample.loop_b; Sample.unlabelled]
           Sample.payload) ∧
  @AreTrailsData.export_trails_to_csv Sample.no_numeric_strings Sample.catalog
    = @AreTrailsData.export_trails_to_csv Sample.no_numeric_strings
        (AreTrailsData.mk [Sample.loop_a; Sample.loop_b; Sample.unlabelled]
           Sample.payload).
Proof.
  destruct (@X7_only_trails_matter Sample.no_numeric_strings Sample.catalog
              (AreTrailsData.mk
                 [Sample.loop_a; Sample.loop_b; Sample.unlabelled]
                 Sample.payload)) as (Hm & _ & _ & _ & _ & _ & _ & _ & He).
  - vm_compute. reflexivity.
  - split; assumption.
Defined.

(** ** More on parsing *)

(** X8: [parse_items] reads the payload only.  Its outcome, and on success
    the items it leaves, are the same for two collections with the same
    payload, whatever items they held before; it never changes the payload;
    and parsing again what it left gives the same again. *)
Theorem X8_parse_items_reads_data_only `{Pydantic} (self : AreTrailsData.t) :
  (∀ other, AreTrailsData.data other = AreTrailsData.data self →
     (AreTrailsData.parse_items other).1 = (AreTrailsData.parse_items self).1 ∧
     ((AreTrailsData.parse_items self).1 = Ok () →
      (AreTrailsData.parse_items other).2
        = (AreTrailsData.parse_items self).2)) ∧
  AreTrailsData.data (AreTrailsData.parse_items self).2
    = AreTrailsData.data self ∧
  AreTrailsData.parse_items (AreTrailsData.parse_items self).2
    = AreTrailsData.parse_items self.
Proof.
  unfold AreTrailsData.parse_items. repeat apply conj.
  - intros other ->.
    destruct (do raw <- getitem (AreTrailsData.data self) "items";
              do elems <- AreTrailsData.py_iter raw;
              AreTrailsData.mapM AreTrailsData.new_TrailItem elems);
      simpl; [done|]. split; [done|discriminate].
  - by destruct (do raw <- getitem (AreTrailsData.data self) "items";
                 do elems <- AreTrailsData.py_iter raw;
                 AreTrailsData.mapM AreTrailsData.new_TrailItem elems).
  - destruct (do raw <- getitem (AreTrailsData.data self) "items";
              do elems <- AreTrailsData.py_iter raw;
              AreTrailsData.mapM AreTrailsData.new_TrailItem elems)
      as [l|e] eqn:Hl; simpl; by rewrite Hl.
Qed.

Lemma X8_parse_items_reads_data_only_witness :
  (@AreTrailsData.parse_items declared_fields
     (AreTrailsData.mk [Sample.shelter] Sample.payload)).2
  = (@AreTrailsData.parse_items declared_fields
       (AreTrailsData.mk [] Sample.payload)).2.
Proof.
  refine (proj2 (proj1 (@X8_parse_items_reads_data_only declared_fields
            (AreTrailsData.mk [] Sample.payload))
            (AreTrailsData.mk [Sample.shelter] Sample.payload) _) _).
  - reflexivity.
  - vm_compute. reflexivity.
Defined.

(** X9: a failing [parse_items] leaves the collection as it was.  It fails
    with [TypeError] when the payload is no mapping (so before any fetch,
    when it is [None]) and with the [KeyError] of ["items"] when the
    payload is a mapping without that key. *)
Theorem X9_parse_items_failure `{Pydantic} (self : AreTrailsData.t) :
  (∀ e after, AreTrailsData.parse_items self = (Raise e, after) →
     after = self) ∧
  (is_mapping (AreTrailsData.data self) = false →
     AreTrailsData.parse_items self = (Raise TypeError, self)) ∧
  (∀ d, AreTrailsData.data self = VDict d → d !! "items" = None →
     AreTrailsData.parse_items self = (Raise (KeyError "items"), self)).
Proof.
  unfold AreTrailsData.parse_items. repeat apply conj.
  - intros e after.
    destruct (do raw <- getitem (AreTrailsData.data self) "items";
              do elems <- AreTrailsData.py_iter raw;
              AreTrailsData.mapM AreTrailsData.new_TrailItem elems);
      [done|]. by intros [= _ <-].
  - intros Hm. by destruct (AreTrailsData.data self).
  - intros d -> Hd. rewrite getitem_mapping, Hd. reflexivity.
Qed.

Lemma X9_parse_items_failure_witness :
  @AreTrailsData.parse_items declared_fields (AreTrailsData.mk [] VNone)
    = (Raise TypeError, AreTrailsData.mk [] VNone) ∧
  @AreTrailsData.parse_items declared_fields
     (AreTrailsData.mk [Sample.shelter] (VDict {[ "language" := VStr "sv" ]}))
    = (Raise (KeyError "items"),
       AreTrailsData.mk [Sample.shelter]
         (VDict {[ "language" := VStr "sv" ]})).
Proof.
  split.
  - apply (proj1 (proj2 (@X9_parse_items_failure declared_fields
             (AreTrailsData.mk [] VNone)))). reflexivity.
  - apply (proj2 (proj2 (@X9_parse_items_failure declared_fields
             (AreTrailsData.mk [Sample.shelter]
                (VDict {[ "language" := VStr "sv" ]}))))
             {[ "language" := VStr "sv" ]}).
    + reflexivity.
    + vm_compute. reflexivity.
Defined.

(** ** More on the export *)

Lemma write_trails_app `{FloatParser} (pre ts : list TrailItem.t)
    (out out' : list csv_row) :
  AreTrailsData.write_trails pre out = (Ok (), out') →
  AreTrailsData.write_trails (pre ++ ts) out
  = AreTrailsData.write_trails ts out'.
Proof.
  revert out. induction pre as [|t pre IH]; simpl; intros out Hpre.
  - by injection Hpre as <-.
  - destruct (do d <- AreTrailsData.row_dict t; AreTrailsData.writerow out d)
      as [out1|e]; [by apply IH|done].
Qed.

(** X10: when a row accessor raises on a trail, the export stops with that
    exception and the file keeps the header and the rows of the trails
    before it, in order; the trails after it are not written. *)
Theorem X10_export_stops_at_first_error `{FloatParser}
    (self : AreTrailsData.t) (pre post : list TrailItem.t)
    (bad : TrailItem.t) (e : pyerr) :
  AreTrailsData.trails self = pre ++ bad :: post →
  (∀ trail, trail ∈ pre → row_accessors_return trail) →
  AreTrailsData.row_dict bad = Raise e →
  ∃ rows,
    AreTrailsData.export_trails_to_csv self = (Raise e, header_row :: rows) ∧
    Forall2 row_of_trail pre rows.
Proof.
  intros Htrails Hpre Hbad. rewrite export_unfold, Htrails.
  destruct (write_trails_rows pre [header_row] Hpre) as (rows & Hw & Hrows).
  exists rows. split; [|done].
  rewrite (write_trails_app pre (bad :: post) _ _ Hw).
  cbn [AreTrailsData.write_trails]. by rewrite Hbad.
Qed.

Lemma X10_export_stops_at_first_error_witness :
  ∃ rows,
    @AreTrailsData.export_trails_to_csv Sample.no_numeric_strings
        (AreTrailsData.mk
           [Sample.loop_a; Sample.shelter; Sample.unmeasured; Sample.loop_b]
           VNone)
      = (Raise (KeyError "trailDistanceMeter"), header_row :: rows) ∧
    Forall2 (@row_of_trail Sample.no_numeric_strings) [Sample.loop_a] rows.
Proof.
  apply (@X10_export_stops_at_first_error Sample.no_numeric_strings
           (AreTrailsData.mk
              [Sample.loop_a; Sample.shelter; Sample.unmeasured; Sample.loop_b]
              VNone)
           [Sample.loop_a] [Sample.loop_b] Sample.unmeasured).
  - vm_compute. reflexivity.
  - assert (Hall : Forall (@row_accessors_return Sample.no_numeric_strings)
                     [Sample.loop_a]).
    { repeat constructor; eexists; vm_compute; reflexivity. }
    intros trail Hin. rewrite Forall_forall in Hall. by apply Hall.
  - vm_compute. reflexivity.
Defined.

Lemma dict_to_list_width (d : gmap string pyval) (row : csv_row) :
  AreTrailsData.dict_to_list d = Ok row → List.length row = 7%nat.
Proof.
  unfold AreTrailsData.dict_to_list. case_bool_decide; [|done].
  by intros [= <-].
Qed.

Lemma write_trails_width `{FloatParser} (ts : list TrailItem.t)
    (out : list csv_row) :
  Forall (λ row, List.length row = 7%nat) out →
  Forall (λ row, List.length row = 7%nat)
         (AreTrailsData.write_trails ts out).2.
Proof.
  revert out. induction ts as [|t ts IH]; simpl; intros out Hout; [done|].
  destruct (AreTrailsData.row_dict t) as [d|e]; simpl; [|done].
  unfold AreTrailsData.writerow.
  destruct (AreTrailsData.dict_to_list d) as [row|e] eqn:Hrow; simpl; [|done].
  apply IH. apply Forall_app. split; [done|].
  constructor; [|done]. by apply dict_to_list_width in Hrow.
Qed.

(** X11: whatever the trails are, and whether the export ends well or not,
    every row of the file has seven cells, the header included. *)
Theorem X11_export_rows_have_seven_cells `{FloatParser}
    (self : AreTrailsData.t) :
  Forall (λ row, List.length row = 7%nat)
         (AreTrailsData.export_trails_to_csv self).2.
Proof.
  rewrite export_unfold. apply write_trails_width. by constructor.
Qed.

(** ** More on lengths *)

(** With a truthy float as distance both accessors reach the conversion. *)
Lemma length_of_float `{FloatParser} (self : TrailItem.t)
    (props : gmap string pyval) (f : spec_float) :
  TrailItem.properties self = VDict props →
  props !! "trailDistanceMeter" = Some (VFloat f) →
  truthy (VFloat f) = true →
  TrailItem.length self = py_int_of_float f ∧
  TrailItem.length_in_km self =
    Ok (VFloat (py_round1 (SFdiv 53 1024 f (float_of_Z 1000)))).
Proof.
  intros Hprops Hd Ht. unfold TrailItem.length, TrailItem.length_in_km.
  rewrite Hprops, getitem_mapping, Hd. cbn [bind]. rewrite Ht.
  split; reflexivity.
Qed.

Lemma SF2Q_sign (s : bool) (m : positive) (e : Z) :
  if s then (SF2Q (S754_finite s m e) < 0)%Q
  else (0 < SF2Q (S754_finite s m e))%Q.
Proof.
  assert (Hpow : 0 ≤ e → 0 < Z.pos m * 2 ^ e).
  { intros He. apply Z.mul_pos_pos; [lia|]. apply Z.pow_pos_nonneg; lia. }
  destruct s, e as [|p|p]; unfold SF2Q, cond_Zopp, Qlt;
    change (IntDef.Z.opp (Z.pos m)) with (- Z.pos m);
    cbn [Qnum Qden inject_Z]; lia.
Qed.

(** X12: for a finite non-zero float distance, [length] returns an integer
    less than one metre away from it, on its side of zero and never beyond
    it: between 0 and a positive distance, between a negative distance
    and 0. *)
Theorem X12_length_within_a_metre `{FloatParser} (self : TrailItem.t)
    (props : gmap string pyval) (s : bool) (m : positive) (e : Z) :
  TrailItem.properties self = VDict props →
  props !! "trailDistanceMeter" = Some (VFloat (S754_finite s m e)) →
  ∃ n, TrailItem.length self = Ok n ∧
       (inject_Z (n - 1) < SF2Q (S754_finite s m e))%Q ∧
       (SF2Q (S754_finite s m e) < inject_Z (n + 1))%Q ∧
       if s then n ≤ 0 ∧ (SF2Q (S754_finite s m e) <= inject_Z n)%Q
       else 0 ≤ n ∧ (inject_Z n <= SF2Q (S754_finite s m e))%Q.
Proof.
  intros Hprops Hd.
  destruct (length_of_float self props _ Hprops Hd eq_refl) as [-> _].
  rewrite int_of_float_finite. eexists. split; [reflexivity|].
  pose proof (SF2Q_sign s m e) as Hsign.
  set (x := SF2Q (S754_finite s m e)) in *. destruct s.
  - pose proof (Qle_ceiling x) as Hle. pose proof (Qceiling_lt x) as Hlt.
    repeat split; try done.
    + eapply Qle_lt_trans; [exact Hle|]. rewrite <- Zlt_Qlt. lia.
    + change 0 with (Qceiling 0). apply Qceiling_resp_le.
      by apply Qlt_le_weak.
  - pose proof (Qfloor_le x) as Hle. pose proof (Qlt_floor x) as Hlt.
    repeat split; try done.
    + eapply Qlt_le_trans; [|exact Hle]. rewrite <- Zlt_Qlt. lia.
    + change 0 with (Qfloor 0). apply Qfloor_resp_le.
      by apply Qlt_le_weak.
Qed.

Lemma X12_length_within_a_metre_witness :
  ∃ n, @TrailItem.length Sample.no_numeric_strings Sample.downhill = Ok n ∧
       (inject_Z (n - 1) < SF2Q Sample.minus_three_halves)%Q ∧
       (SF2Q Sample.minus_three_halves < inject_Z (n + 1))%Q ∧
       n ≤ 0 ∧ (SF2Q Sample.minus_three_halves <= inject_Z n)%Q.
Proof.
  apply (@X12_length_within_a_metre Sample.no_numeric_strings Sample.downhill
           {[ "isMultiTrail" := VBool false;
              "trailDistanceMeter" := VFloat Sample.minus_three_halves ]}
           true 3%positive (-1)).
  - reflexivity.
  - vm_compute. reflexivity.
Defined.

(** X13: a distance that is NaN or infinite is truthy, so [length] raises,
    [ValueError] for NaN and [OverflowError] for an infinity, while
    [length_in_km] returns and hands the same NaN or infinity back. *)
Theorem X13_length_of_nan_and_infinity `{FloatParser} (self : TrailItem.t)
    (props : gmap string pyval) :
  TrailItem.properties self = VDict props →
  (props !! "trailDistanceMeter" = Some (VFloat S754_nan) →
     TrailItem.length self
       = Raise (ValueError "cannot convert float NaN to integer") ∧
     TrailItem.length_in_km self = Ok (VFloat S754_nan)) ∧
  (∀ s, props !! "trailDistanceMeter" = Some (VFloat (S754_infinity s)) →
     TrailItem.length self = Raise OverflowError ∧
     TrailItem.length_in_km self = Ok (VFloat (S754_infinity s))).
Proof.
  intros Hprops. split.
  - intros Hd.
    destruct (length_of_float self props _ Hprops Hd eq_refl) as [-> ->].
    split; reflexivity.
  - intros s Hd.
    destruct (length_of_float self props _ Hprops Hd eq_refl) as [-> ->].
    split; [reflexivity|]. by destruct s.
Qed.

Lemma X13_length_of_nan_and_infinity_witness :
  @TrailItem.length Sample.no_numeric_strings
     (TrailItem.mk "n1" "trail" VNone
        (VDict {[ "trailDistanceMeter" := VFloat S754_nan ]}) "net")
    = Raise (ValueError "cannot convert float NaN to integer") ∧
  @TrailItem.length_in_km Sample.no_numeric_strings
     (TrailItem.mk "n1" "trail" VNone
        (VDict {[ "trailDistanceMeter" := VFloat S754_nan ]}) "net")
    = Ok (VFloat S754_nan).
Proof.
  apply (proj1 (@X13_length_of_nan_and_infinity Sample.no_numeric_strings
           (TrailItem.mk "n1" "trail" VNone
              (VDict {[ "trailDistanceMeter" := VFloat S754_nan ]}) "net")
           {[ "trailDistanceMeter" := VFloat S754_nan ]} eq_refl)).
  vm_compute. reflexivity.
Defined.

(** ** Links *)

Lemma append_inj_l (p a b : string) : p +:+ a = p +:+ b → a = b.
Proof. induction p as [|c p IH]; simpl; [done|]. intros [= Heq]. auto. Qed.

(** X14: the page link of a trail says which trail it is: two items have
    the same [url] exactly when they have the same [id]. *)
Theorem X14_url_identifies_the_trail (a b : TrailItem.t) :
  TrailItem.url a = TrailItem.url b ↔ TrailItem.id a = TrailItem.id b.
Proof.
  unfold TrailItem.url. split; [apply append_inj_l|by intros ->].
Qed.

(** ** The script *)

Lemma is_error_status_spec (status : Z) :
  Script.is_error_status status = true ↔ 400 ≤ status < 600.
Proof. unfold Script.is_error_status. lia. Qed.


(** Runs the script, one case for each place where it can stop. *)
Ltac run_script :=
  unfold Script.main, Script.fetch_aretrails_json, Script.report,
    Script.export;
  repeat match goal with
         | |- context [match ?x with _ => _ end] => destruct x eqn:?
         end;
  cbn [app fst snd].

(** X15: every run prints at most nine counts and then exactly one closing
    line, which is the success line of the export, the fetch error or the
    unexpected error; the fetch error comes with no count; and the CSV file
    is opened only after all nine counts. *)
Theorem X15_console_shape `{FloatParser} `{Pydantic}
    (net : Script.http_reply) :
  ∃ counts last,
    (Script.main net).1 = counts ++ [last] ∧
    Forall (λ line, is_count line = true) counts ∧
    (last = Script.Exported "trails.csv" ∨ last = Script.ErrorFetching ∨
     ∃ e, last = Script.UnexpectedError e) ∧
    (List.length counts ≤ 9)%nat ∧
    (last = Script.ErrorFetching → counts = []) ∧
    ((Script.main net).2 ≠ None → List.length counts = 9%nat).
Proof.
  run_script;
    match goal with
    | |- ∃ counts last, ?l = _ ∧ _ =>
        exists (removelast l), (List.last l Script.ErrorFetching)
    end;
    cbn [removelast List.last];
    (split; [reflexivity|]);
    (split; [repeat constructor|]);
    (split; [eauto|]);
    (split; [cbn [List.length]; lia|]);
    (split; [done|done]).
Qed.

Lemma X15_console_shape_witness :
  ∃ counts last,
    (@Script.main Sample.no_numeric_strings declared_fields
       (Script.Reply 200 Feed.body)).1 = counts ++ [last] ∧
    Forall (λ line, is_count line = true) counts ∧
    (last = Script.Exported "trails.csv" ∨ last = Script.ErrorFetching ∨
     ∃ e, last = Script.UnexpectedError e) ∧
    (List.length counts ≤ 9)%nat ∧
    (last = Script.ErrorFetching → counts = []) ∧
    ((@Script.main Sample.no_numeric_strings declared_fields
        (Script.Reply 200 Feed.body)).2 ≠ None →
     List.length counts = 9%nat).
Proof.
  exact (@X15_console_shape Sample.no_numeric_strings declared_fields
           (Script.Reply 200 Feed.body)).
Defined.

(** A list [trails_with_unsupported_activity] returns is empty. *)
Lemma unsupported_is_nil (self : AreTrailsData.t) (l : list TrailItem.t) :
  AreTrailsData.trails_with_unsupported_activity self = Ok l → l = [].
Proof.
  intros Hl. apply view_of_trails in Hl as (_ & _ & Hl).
  destruct l as [|item l]; [done|]. exfalso.
  destruct (proj1 (Hl item)) as [_ Hc]; [left|].
  apply bind_Ok in Hc as (s & Hs & [= Hneg]).
  apply negb_true_iff in Hneg. subst s.
  by apply (supported_never_false item).
Qed.

(** When both activity views return, their lengths add up to the number of
    trails. *)
Lemma activity_views_lengths (self : AreTrailsData.t)
    (lw lwo : list TrailItem.t) :
  AreTrailsData.trails_with_activity self = Ok lw →
  AreTrailsData.trails_without_activity self = Ok lwo →
  (List.length lwo + List.length lw)%nat
  = List.length (AreTrailsData.trails self).
Proof.
  unfold AreTrailsData.trails_with_activity,
    AreTrailsData.trails_without_activity.
  rewrite !filterM_trail_and. fold (AreTrailsData.trails self).
  intros Hw Hwo.
  destruct (filterM_complement
    (λ item, do a <- TrailItem.activity item; Ok (negb (eq_empty_dict a)))
    (λ item, do a <- TrailItem.activity item; Ok (eq_empty_dict a))
    (AreTrailsData.trails self)) as (w & wo & Hw' & Hwo' & Hperm).
  { intros item Hin. apply activity_tests_disagree, activity_returns.
    assert (Hok : is_ok (filterM
              (λ item, do a <- TrailItem.activity item;
                       Ok (negb (eq_empty_dict a)))
              (AreTrailsData.trails self))) by (by exists lw).
    rewrite filterM_is_ok_iff in Hok. specialize (Hok item Hin).
    destruct (TrailItem.activity item); [apply is_ok_Ok|by destruct Hok]. }
  rewrite Hw in Hw'. rewrite Hwo in Hwo'.
  injection Hw' as <-. injection Hwo' as <-.
  apply Permutation_length in Hperm. rewrite length_app in Hperm. lia.
Qed.

(** The trails in which a test finds its word are among the trails with an
    activity. *)
Lemma tested_view_sublist (needle : string) (self : AreTrailsData.t)
    (l lw : list TrailItem.t) :
  needle ≠ "" →
  filterM (λ item, AreTrailsData.trail_and item
             (do k <- TrailItem.activity_key item;
              do b <- py_in needle k;
              if b then Ok true else Ok false))
          (AreTrailsData.items self) = Ok l →
  AreTrailsData.trails_with_activity self = Ok lw →
  l `sublist_of` lw.
Proof.
  unfold AreTrailsData.trails_with_activity.
  rewrite !filterM_trail_and. intros Hne Hl Hw.
  eapply filterM_sublist_mono; [|exact Hl|exact Hw].
  intros item _ Hitem. cbv beta in Hitem.
  destruct (word_in_key_has_activity needle item Hne Hitem) as (a & -> & Ha).
  cbn [bind]. by rewrite Ha.
Qed.

Lemma write_trails_length `{FloatParser} (ts : list TrailItem.t)
    (out out' : list csv_row) :
  AreTrailsData.write_trails ts out = (Ok (), out') →
  List.length out' = (List.length out + List.length ts)%nat.
Proof.
  revert out. induction ts as [|t ts IH]; simpl; intros out Hw.
  - injection Hw as <-. lia.
  - destruct (do d <- AreTrailsData.row_dict t; AreTrailsData.writerow out d)
      as [out1|e] eqn:Hrow; [|done].
    rewrite (IH _ Hw).
    apply bind_Ok in Hrow as (d & _ & Hrow).
    apply bind_Ok in Hrow as (row & _ & [= <-]).
    rewrite length_app. simpl. lia.
Qed.

(** X16: in a run that gets as far as the export, the nine counts agree
    with each other: the bicycle count is the trail count, the count of
    unsupported activities is 0, the counts with and without activity add
    up to the trail count, and the multitrail, hiking, riding and running
    counts are at most the trail count, the last three at most the count
    with activity; and after a successful export the file has one row more
    than there are trails. *)
Theorem X16_counts_agree `{FloatParser} `{Pydantic}
    (net : Script.http_reply) (rows : list csv_row) :
  (Script.main net).2 = Some rows →
  ∃ t m h r u wo w last,
    (Script.main net).1 =
      [Script.Count "number of Trail items" t;
       Script.Count "number of multitrail items" m;
       Script.Count "number of hiking trail items" h;
       Script.Count "number of bicycle trail items" t;
       Script.Count "number of riding trail items" r;
       Script.Count "number of running trail items" u;
       Script.Count "number of trail items without activity" wo;
       Script.Count "number of trail items with activity" w;
       Script.Count "number of trail items with unsupported activity" 0;
       last] ∧
    (wo + w = t)%nat ∧ (m ≤ t)%nat ∧
    (h ≤ w)%nat ∧ (r ≤ w)%nat ∧ (u ≤ w)%nat ∧
    (last = Script.Exported "trails.csv" →
     List.length rows = S t).
Proof.
  unfold Script.main, Script.fetch_aretrails_json.
  destruct net as [|status body]; [done|].
  destruct (Script.is_error_status status); [done|].
  destruct (AreTrailsData.parse_items _) as [[[]|eparse] atd]; [|done].
  unfold Script.report.
  destruct (AreTrailsData.multitrails atd) as [lm|?] eqn:Hm; [|done].
  destruct (AreTrailsData.hiking_trails atd) as [lh|?] eqn:Hh; [|done].
  destruct (AreTrailsData.bicycle_trails atd) as [lb|?] eqn:Hb; [|done].
  destruct (AreTrailsData.riding_trails atd) as [lr|?] eqn:Hr; [|done].
  destruct (AreTrailsData.running_trails atd) as [lu|?] eqn:Hu; [|done].
  destruct (AreTrailsData.trails_without_activity atd)
    as [lwo|?] eqn:Hwo; [|done].
  destruct (AreTrailsData.trails_with_activity atd) as [lw|?] eqn:Hw; [|done].
  destruct (AreTrailsData.trails_with_unsupported_activity atd)
    as [ln|?] eqn:Hn; [|done].
  apply unsupported_is_nil in Hn as ->.
  unfold AreTrailsData.bicycle_trails in Hb.
  rewrite filterM_trail_and, filterM_all in Hb by done.
  injection Hb as <-. fold (AreTrailsData.trails atd).
  pose proof (activity_views_lengths atd lw lwo Hw Hwo) as Hsum.
  apply view_of_trails in Hm as (Hm & _).
  apply sublist_length in Hm.
  pose proof (tested_view_sublist "hiking" atd lh lw
                ltac:(done) Hh Hw) as Hhw%sublist_length.
  pose proof (tested_view_sublist "riding" atd lr lw
                ltac:(done) Hr Hw) as Hrw%sublist_length.
  pose proof (tested_view_sublist "running" atd lu lw
                ltac:(done) Hu Hw) as Huw%sublist_length.
  unfold Script.export.
  destruct (AreTrailsData.export_trails_to_csv atd)
    as [[[]|eexp] rows'] eqn:Hexp; cbn [app fst snd]; intros [= ->];
    eexists _, _, _, _, _, _, _, _; (split; [reflexivity|]);
    repeat (split; [done|]).
  - intros _. rewrite export_unfold in Hexp.
    by apply write_trails_length in Hexp.
  - done.
Qed.

Lemma X16_counts_agree_witness :
  ∃ t m h r u wo w last,
    (@Script.main Sample.no_numeric_strings declared_fields
       (Script.Reply 200 Feed.body)).1 =
      [Script.Count "number of Trail items" t;
       Script.Count "number of multitrail items" m;
       Script.Count "number of hiking trail items" h;
       Script.Count "number of bicycle trail items" t;
       Script.Count "number of riding trail items" r;
       Script.Count "number of running trail items" u;
       Script.Count "number of trail items without activity" wo;
       Script.Count "number of trail items with activity" w;
       Script.Count "number of trail items with unsupported activity" 0;
       last] ∧
    (wo + w = t)%nat ∧ (m ≤ t)%nat ∧
    (h ≤ w)%nat ∧ (r ≤ w)%nat ∧ (u ≤ w)%nat ∧
    (last = Script.Exported "trails.csv" →
     List.length
       (@AreTrailsData.export_trails_to_csv Sample.no_numeric_strings
          Sample.catalog).2 = S t).
Proof.
  apply (@X16_counts_agree Sample.no_numeric_strings declared_fields
           (Script.Reply 200 Feed.body)).
  vm_compute. reflexivity.
Defined.



Lemma view_returns (c : TrailItem.t → result bool) (self : AreTrailsData.t) :
  (∀ item, item ∈ AreTrailsData.trails self → is_ok (c item)) →
  ∃ l, filterM (λ item, AreTrailsData.trail_and item (c item))
               (AreTrailsData.items self) = Ok l ∧
       (List.length l ≤ List.length (AreTrailsData.trails self))%nat.
Proof.
  intros Hok.
  destruct (filterM (λ item, AreTrailsData.trail_and item (c item))
                    (AreTrailsData.items self)) as [l|e] eqn:Hl.
  - exists l. split; [done|].
    apply view_of_trails in Hl as [Hl _]. by apply sublist_length.
  - rewrite filterM_trail_and in Hl.
    destruct (filterM_is_ok c (AreTrailsData.trails self) Hok) as [l' Hl'].
    unfold AreTrailsData.trails in Hl'. congruence.
Qed.

(** X18: a run whose request goes through, whose payload parses, and whose
    trails all have a string as activity key and the fields of the row
    accessors, prints the nine counts and the success line and writes the
    header and one row for each trail. *)
Theorem X18_successful_run `{FloatParser} `{Pydantic}
    (status : Z) (body : pyval) (atd : AreTrailsData.t) :
  ¬ (400 ≤ status < 600) →
  AreTrailsData.parse_items (AreTrailsData.mk [] body) = (Ok (), atd) →
  (∀ trail, trail ∈ AreTrailsData.trails atd →
     row_accessors_return trail ∧
     returns_str (TrailItem.activity_key trail) = true) →
  ∃ counts rows,
    Script.main (Script.Reply status body)
      = (counts ++ [Script.Exported "trails.csv"], Some (header_row :: rows)) ∧
    List.length counts = 9%nat ∧
    Forall (λ line, is_count line = true) counts ∧
    Forall2 row_of_trail (AreTrailsData.trails atd) rows.
Proof.
  intros Hstatus Hparse Hwf.
  assert (Hkey : ∀ trail, trail ∈ AreTrailsData.trails atd →
            ∃ k, TrailItem.activity_key trail = Ok (VStr k)).
  { intros trail Hin. apply returns_str_inv. by apply Hwf. }
  assert (Hact : ∀ trail, trail ∈ AreTrailsData.trails atd →
            is_ok (TrailItem.activity trail)).
  { intros trail Hin. destruct (Hkey trail Hin) as [k Hk].
    unfold TrailItem.activity_key in Hk.
    destruct (TrailItem.activity trail); [apply is_ok_Ok|done]. }
  assert (Hword : ∀ needle trail, trail ∈ AreTrailsData.trails atd →
            is_ok (do k <- TrailItem.activity_key trail;
                   do b <- py_in needle k;
                   if b then Ok true else Ok false)).
  { intros needle trail Hin. destruct (Hkey trail Hin) as [k ->].
    cbn [bind py_in]. destruct (str_contains needle k); apply is_ok_Ok. }
  unfold Script.main, Script.fetch_aretrails_json.
  destruct (Script.is_error_status status) eqn:Hs;
    [by apply is_error_status_spec in Hs|].
  cbn [AreTrailsData.items]. rewrite Hparse. unfold Script.report.
  destruct (view_returns
    (λ item, do v <- TrailItem.is_multitrail item; Ok (truthy v)) atd)
    as (lm & Hm & _).
  { intros trail Hin. destruct (Hwf trail Hin) as [(_ & _ & _ & [v ->] & _) _].
    apply is_ok_Ok. }
  fold (AreTrailsData.multitrails atd) in Hm. rewrite Hm.
  destruct (view_returns TrailItem.has_hike_activity atd)
    as (lh & Hh & _); [apply Hword|].
  fold (AreTrailsData.hiking_trails atd) in Hh. rewrite Hh.
  destruct (view_returns TrailItem.has_bike_activity atd)
    as (lb & Hb & _); [intros; apply is_ok_Ok|].
  fold (AreTrailsData.bicycle_trails atd) in Hb. rewrite Hb.
  destruct (view_returns TrailItem.has_riding_activity atd)
    as (lr & Hr & _); [apply Hword|].
  fold (AreTrailsData.riding_trails atd) in Hr. rewrite Hr.
  destruct (view_returns TrailItem.has_running_activity atd)
    as (lu & Hu & _); [apply Hword|].
  fold (AreTrailsData.running_trails atd) in Hu. rewrite Hu.
  destruct (view_returns
    (λ item, do a <- TrailItem.activity item; Ok (eq_empty_dict a)) atd)
    as (lwo & Hwo & _).
  { intros trail Hin. destruct (Hact trail Hin) as [a ->]. apply is_ok_Ok. }
  fold (AreTrailsData.trails_without_activity atd) in Hwo. rewrite Hwo.
  destruct (view_returns
    (λ item, do a <- TrailItem.activity item; Ok (negb (eq_empty_dict a))) atd)
    as (lw & Hw & _).
  { intros trail Hin. destruct (Hact trail Hin) as [a ->]. apply is_ok_Ok. }
  fold (AreTrailsData.trails_with_activity atd) in Hw. rewrite Hw.
  destruct (view_returns
    (λ item, do s <- orM (TrailItem.has_hike_activity item)
                       (orM (TrailItem.has_riding_activity item)
                          (orM (TrailItem.has_bike_activity item)
                               (TrailItem.has_running_activity item)));
             Ok (negb s)) atd) as (ln & Hn & _).
  { intros trail Hin. destruct (Hkey trail Hin) as [k Hk].
    rewrite (supported_of_str_key trail k Hk). apply is_ok_Ok. }
  fold (AreTrailsData.trails_with_unsupported_activity atd) in Hn.
  rewrite Hn. unfold Script.export. rewrite export_unfold.
  destruct (write_trails_rows (AreTrailsData.trails atd) [header_row])
    as (rows & -> & Hrows); [intros; by apply Hwf|].
  eexists _, rows. split; [reflexivity|].
  split; [reflexivity|]. split; [repeat constructor|done].
Qed.

Lemma X18_successful_run_witness :
  ∃ counts rows,
    @Script.main Sample.no_numeric_strings declared_fields
       (Script.Reply 200 Feed.body)
      = (counts ++ [Script.Exported "trails.csv"], Some (header_row :: rows)) ∧
    List.length counts = 9%nat ∧
    Forall (λ line, is_count line = true) counts ∧
    Forall2 (@row_of_trail Sample.no_numeric_strings)
      (AreTrailsData.trails
         (AreTrailsData.mk (AreTrailsData.items Sample.catalog) Feed.body))
      rows.
Proof.
  apply (@X18_successful_run Sample.no_numeric_strings declared_fields
           200 Feed.body
           (AreTrailsData.mk (AreTrailsData.items Sample.catalog) Feed.body)).
  - lia.
  - vm_compute. reflexivity.
  - assert (Hall : Forall (λ trail,
              @row_accessors_return Sample.no_numeric_strings trail ∧
              returns_str (TrailItem.activity_key trail) = true)
              [Sample.loop_a; Sample.loop_b; Sample.unlabelled]).
    {
      repeat constructor; try (eexists; vm_compute; reflexivity);
        vm_compute; reflexivity. }
    intros trail Hin. rewrite Forall_forall in Hall. by apply Hall.
Defined.
